(** * scripts/build.py: the batch build orchestrator

    A shallow embedding of [scripts/build.py] and the properties of its
    build loop.  The script pulls the default build image, then for each
    line of standard input assembles a [docker run] command and, unless
    [--dry-run] is given, launches it, remembering in the global [fail]
    whether any build exited with a non-zero status.

    Python text ([str]) is a sequence of Unicode code points, process
    output ([bytes]) a sequence of bytes.  A statement runs in a state
    (the global [fail] and the number of processes spawned so far) and
    yields a value or an exception, the new state and the events it
    caused: processes spawned and records logged.  What the outside
    answers is given by a [Host]. *)

From Stdlib.Strings Require Import String Ascii Byte.
From Stdlib Require Import List NArith ZArith Bool Lia.
From Stdlib Require DecimalString.
Import ListNotations.

Local Open Scope list_scope.

(** ** Text and bytes *)

(** A code point of a Python [str]. *)
Definition char := N.

(** A Python [str]. *)
Definition str := list char.

(** A Python [bytes]. *)
Definition bytes := list byte.

(** A source literal, as the [str] of its (ASCII) characters.  A literal
    here has no escapes: a backslash in it is a backslash. *)
Definition lit (s : string) : str :=
  map N_of_ascii (list_ascii_of_string s).

Definition str_eqb (a b : str) : bool :=
  if list_eq_dec N.eq_dec a b then true else false.

(** [s[:n]]: the first [n] code points, or all of [s] when it is shorter. *)
Definition slice_to (n : nat) (s : str) : str := firstn n s.

(** [str.isspace] on one code point, which is what [split] and [rstrip]
    without argument take for blank (CPython's [_PyUnicode_IsWhitespace]). *)
Definition isspace (c : char) : bool :=
  ((0x09 <=? c) && (c <=? 0x0D) || (0x1C <=? c) && (c <=? 0x20)
   || (c =? 0x85) || (c =? 0xA0) || (c =? 0x1680)
   || (0x2000 <=? c) && (c <=? 0x200A)
   || (c =? 0x2028) || (c =? 0x2029) || (c =? 0x202F) || (c =? 0x205F)
   || (c =? 0x3000))%N.

(** [s.split()] with the field being read, reversed, in [acc]. *)
Fixpoint split_fields (acc : str) (s : str) : list str :=
  match s with
  | [] => match acc with [] => [] | _ => [rev acc] end
  | c :: s' =>
      if isspace c
      then match acc with
           | [] => split_fields [] s'
           | _ => rev acc :: split_fields [] s'
           end
      else split_fields (c :: acc) s'
  end.

(** [s.split()]: the maximal runs of code points that are not whitespace. *)
Definition split (s : str) : list str := split_fields [] s.

(** [s.split(sep)] for a separator of one code point; the piece being
    read, reversed, is in [acc]. *)
Fixpoint split_pieces (sep : char) (acc : str) (s : str) : list str :=
  match s with
  | [] => [rev acc]
  | c :: s' =>
      if (c =? sep)%N then rev acc :: split_pieces sep [] s'
      else split_pieces sep (c :: acc) s'
  end.

Definition newline : char := 10%N.

(** [s.split("\n")]. *)
Definition split_lines (s : str) : list str := split_pieces newline [] s.

(** [s.rstrip()]. *)
Definition rstrip (s : str) : str :=
  rev (
    (fix drop (r : str) : str :=
       match r with
       | [] => []
       | c :: r' => if isspace c then drop r' else r
       end) (rev s)).

(** [str(n)] for an [int]. *)
Definition str_of_int (n : Z) : str :=
  lit (DecimalString.NilZero.string_of_int (Z.to_int n)).

(** *** [repr] of a [str] and [str] of a list *)

Definition hex_digit (d : N) : char :=
  (if d <? 10 then 48 + d else 87 + d)%N.

(** The [n] lowest hexadecimal digits of [c], most significant first. *)
Fixpoint hex_digits (n : nat) (c : N) : str :=
  match n with
  | O => []
  | S n' => hex_digits n' (c / 16) ++ [hex_digit (c mod 16)]
  end.

Definition quote1 : char := 39%N.
Definition quote2 : char := 34%N.
Definition backslash : char := 92%N.

(** One code point inside [repr(s)]: the quote in use and the backslash
    are escaped, tab, line feed and carriage return are written with their
    letter, the other control characters and what is not printable in
    hexadecimal.  [printable] is [str.isprintable] on the code points
    above ASCII (it comes from the Unicode database). *)
Definition repr_char (printable : char -> bool) (quote : char) (c : char) : str :=
  (if (c =? quote) || (c =? backslash) then [backslash; c]
   else if c =? 9 then lit "\t"
   else if c =? 10 then lit "\n"
   else if c =? 13 then lit "\r"
   else if (c <? 32) || (c =? 127) then lit "\x" ++ hex_digits 2 c
   else if c <? 127 then [c]
   else if printable c then [c]
   else if c <? 256 then lit "\x" ++ hex_digits 2 c
   else if c <? 65536 then lit "\u" ++ hex_digits 4 c
   else lit "\U" ++ hex_digits 8 c)%N.

Definition has_char (c : char) (s : str) : bool := existsb (N.eqb c) s.

(** [repr(s)]: double quotes only when [s] has a single quote and no
    double quote. *)
Definition repr (printable : char -> bool) (s : str) : str :=
  let quote :=
    if has_char quote1 s && negb (has_char quote2 s) then quote2 else quote1 in
  [quote] ++ flat_map (repr_char printable quote) s ++ [quote].

(** [sep.join(l)]. *)
Fixpoint join (sep : str) (l : list str) : str :=
  match l with
  | [] => []
  | [x] => x
  | x :: l' => x ++ sep ++ join sep l'
  end.

(** [str(l)] for a list of [str], as ["{}".format(l)] renders it. *)
Definition str_of_list (printable : char -> bool) (l : list str) : str :=
  lit "[" ++ join (lit ", ") (map (repr printable) l) ++ lit "]".

(** *** Strict UTF-8 decoding *)

Definition continuation (b : byte) : option N :=
  let n := Byte.to_N b in
  (if (0x80 <=? n) && (n <=? 0xBF) then Some (n - 0x80) else None)%N.

(** [b.decode("utf-8")]: [None] where Python raises [UnicodeDecodeError]. *)
Fixpoint utf8_decode (b : bytes) : option str :=
  match b with
  | [] => Some []
  | b0 :: r0 =>
      let n0 := Byte.to_N b0 in
      (if n0 <? 0x80 then option_map (cons n0) (utf8_decode r0)
       else if n0 <? 0xC2 then None
       else if n0 <? 0xE0 then
         match r0 with
         | b1 :: r1 =>
             match continuation b1 with
             | Some c1 =>
                 option_map (cons ((n0 - 0xC0) * 64 + c1)) (utf8_decode r1)
             | None => None
             end
         | _ => None
         end
       else if n0 <? 0xF0 then
         match r0 with
         | b1 :: b2 :: r2 =>
             match continuation b1, continuation b2 with
             | Some c1, Some c2 =>
                 let cp := (n0 - 0xE0) * 4096 + c1 * 64 + c2 in
                 if (cp <? 0x800) || (0xD800 <=? cp) && (cp <=? 0xDFFF)
                 then None
                 else option_map (cons cp) (utf8_decode r2)
             | _, _ => None
             end
         | _ => None
         end
       else if n0 <? 0xF5 then
         match r0 with
         | b1 :: b2 :: b3 :: r3 =>
             match continuation b1, continuation b2, continuation b3 with
             | Some c1, Some c2, Some c3 =>
                 let cp := (n0 - 0xF0) * 262144 + c1 * 4096 + c2 * 64 + c3 in
                 if (cp <? 0x10000) || (0x10FFFF <? cp)
                 then None
                 else option_map (cons cp) (utf8_decode r3)
             | _, _, _ => None
             end
         | _ => None
         end
       else None)%N
  end.

(** ** Configuration: the parsed command line *)

(** The [args] namespace of the argument parser. *)
Record Args := {
  recipes_dir : str;
  recipes_mount : str;
  artefacts_dir : str;
  artefacts_mount : str;
  build_channel : list str;
  irods_build_image : str;
  conda_build_image : str;
  remove_container : bool;
  conda_uid : Z;
  conda_gid : Z;
  dry_run : bool;
  debug : bool;
  verbose : bool
}.

(** Levels of the [logging] module. *)
Inductive Level := DEBUG | INFO | ERROR.

Definition level_no (l : Level) : Z :=
  match l with DEBUG => 10 | INFO => 20 | ERROR => 40 end.

(** The level given to [log.basicConfig]. *)
Definition level (args : Args) : Level :=
  if debug args then DEBUG
  else if verbose args || dry_run args then INFO
  else ERROR.

(** ** The host: the outside of the script *)

(** How a spawned process ends: it exits with a return code and its
    captured output, or it cannot be started ([subprocess] raises, an
    [OSError] for one; nothing in the script tells these exceptions
    apart). *)
Inductive ProcResult :=
| Exited (returncode : Z) (stdout : bytes)
| NotStarted.

(** The host the script runs on: the codec named by
    [sys.getfilesystemencoding()] ([None] where decoding raises
    [UnicodeDecodeError]), [str.isprintable] on a code point, and what the
    [n]-th process spawned by the run, with argument list [argv], does. *)
Record Host := {
  fs_decode : bytes -> option str;
  isprintable : char -> bool;
  spawn : nat -> list str -> ProcResult
}.

(** What the run does to the outside, in the order it happens: a process
    is spawned (and ends as recorded), or a record reaches the log
    handler. *)
Inductive Event :=
| EvSpawn (argv : list str) (result : ProcResult)
| EvLog (lvl : Level) (message : str).

(** The exceptions the script can meet. *)
Inductive Exn :=
| CalledProcessError (returncode : Z) (cmd : list str) (stdout : bytes)
| OSError
| ValueError
| UnicodeDecodeError
| SystemExit (code : Z).

(** ** The interpreter state and the monad of statements *)

(** The module's global [fail] and the number of processes spawned so
    far. *)
Record State := {
  fail : bool;
  spawned : nat
}.

Inductive Result (A : Type) :=
| Ok (a : A)
| Raise (e : Exn).

Arguments Ok {A} a.
Arguments Raise {A} e.

(** A statement: from a state, a value or a raised exception, the state
    it leaves and the events it caused, in order. *)
Definition M (A : Type) : Type := State -> Result A * State * list Event.

Definition ret {A} (a : A) : M A := fun s => (Ok a, s, []).

Definition bind {A B} (m : M A) (k : A -> M B) : M B :=
  fun s =>
    match m s with
    | (Ok a, s', t) => let '(r, s'', t') := k a s' in (r, s'', t ++ t')
    | (Raise e, s', t) => (Raise e, s', t)
    end.

Definition raise {A} (e : Exn) : M A := fun s => (Raise e, s, []).

Declare Scope py_scope.
Delimit Scope py_scope with py.
Notation "x <- m ;; k" := (bind m (fun x => k))
  (at level 61, m at next level, right associativity) : py_scope.
Notation "m ;; k" := (bind m (fun _ => k))
  (at level 61, right associativity) : py_scope.
Local Open Scope py_scope.

(** [try: body except CalledProcessError as e: handler e]; any other
    exception of [body] goes on. *)
Definition try_except_CalledProcessError {A}
    (body : M A) (handler : Z -> list str -> bytes -> M A) : M A :=
  fun s =>
    match body s with
    | (Raise (CalledProcessError rc cmd out), s', t) =>
        let '(r, s'', t') := handler rc cmd out s' in (r, s'', t ++ t')
    | r => r
    end.

(** [for x in l: body x]. *)
Fixpoint for_each {A} (l : list A) (body : A -> M unit) : M unit :=
  match l with
  | [] => ret tt
  | x :: l' => body x ;; for_each l' body
  end.

Definition emit (e : Event) : M unit := fun s => (Ok tt, s, [e]).

Definition set_fail (b : bool) : M unit :=
  fun s => (Ok tt, {| fail := b; spawned := spawned s |}, []).

Definition get_fail : M bool := fun s => (Ok (fail s), s, []).

(** The argument list of line 31. *)
Definition pull_argv (image : str) : list str :=
  [lit "docker"; lit "pull"; image].

Section Script.

Variable host : Host.
Variable args : Args.

(** [log.debug], [log.info], [log.error]: the record reaches the handler
    when its level is at least the configured one. *)
Definition log (lvl : Level) (message : str) : M unit :=
  if (level_no (level args) <=? level_no lvl)%Z
  then emit (EvLog lvl message)
  else ret tt.

(** [subprocess.run(argv, check=True, stdout=PIPE, stderr=STDOUT).stdout]:
    the process is spawned and waited for; [OSError] when it cannot be
    started, [CalledProcessError] when its return code is not zero. *)
Definition subprocess_run (argv : list str) : M bytes :=
  fun s =>
    let r := spawn host (spawned s) argv in
    let s' := {| fail := fail s; spawned := S (spawned s) |} in
    match r with
    | Exited rc out =>
        if (rc =? 0)%Z then (Ok out, s', [EvSpawn argv r])
        else (Raise (CalledProcessError rc argv out), s', [EvSpawn argv r])
    | NotStarted => (Raise OSError, s', [EvSpawn argv r])
    end.

(** [subprocess.check_output(argv)], which is [run] with [check=True]
    and the standard output captured. *)
Definition check_output (argv : list str) : M bytes := subprocess_run argv.

(** [docker_pull(image)] (lines 30-31). *)
Definition docker_pull (image : str) : M unit :=
  check_output (pull_argv image) ;; ret tt.

(** [b.decode(enc)] with [enc = sys.getfilesystemencoding()]. *)
Definition decode (b : bytes) : M str :=
  match fs_decode host b with
  | Some text => ret text
  | None => raise UnicodeDecodeError
  end.

(** [name, version, path = fields]: [ValueError] unless there are
    exactly three. *)
Definition unpack3 (fields : list str) : M (str * str * str) :=
  match fields with
  | [name; version; path] => ret (name, version, path)
  | _ => raise ValueError
  end.

(** The test of line 135: [name == "irods" and version[:4] == "4.1."]. *)
Definition is_irods_4_1 (name version : str) : bool :=
  str_eqb name (lit "irods") && str_eqb (slice_to 4 version) (lit "4.1.").

(** The value of [build_image] after lines 134-136. *)
Definition build_image (name version : str) : str :=
  if is_irods_4_1 name version
  then irods_build_image args
  else conda_build_image args.

(** What line 141 starts the script with. *)
Definition export_statement : str :=
  lit "export CONDA_BLD_PATH=" ++ [quote2] ++ artefacts_mount args
    ++ [quote2] ++ lit " ; ".

(** What lines 142-143 append. *)
Definition auto_update_statement : str :=
  lit "conda config --set auto_update_conda False ; ".

(** What lines 146-147 append for one channel. *)
Definition channel_statement (build_channel : str) : str :=
  lit "conda config --add channels " ++ build_channel ++ lit " ; ".

(** What lines 149-150 append. *)
Definition build_statement (path : str) : str :=
  lit "cd " ++ [quote2] ++ recipes_mount args ++ [quote2]
    ++ lit " && conda build " ++ path.

(** The value of [build_script] after lines 140-150. *)
Definition build_script (path : str) : str :=
  let build_script := export_statement in
  let build_script := build_script ++ auto_update_statement in
  let build_script :=
    fold_left (fun script channel => script ++ channel_statement channel)
      (build_channel args) build_script in
  build_script ++ build_statement path.

(** The value of [cmd] after lines 152-168. *)
Definition cmd (build_image : str) (build_script : str) : list str :=
  let run_cmd := [lit "docker"; lit "run"] in
  let mount_args :=
    [lit "--mount";
     lit "source=" ++ recipes_dir args ++ lit ",target="
       ++ recipes_mount args ++ lit ",type=bind";
     lit "--mount";
     lit "source=" ++ artefacts_dir args ++ lit ",target="
       ++ artefacts_mount args ++ lit ",type=bind"] in
  let env_args :=
    [lit "-e"; lit "CONDA_USER_ID=" ++ str_of_int (conda_uid args);
     lit "-e"; lit "CONDA_GROUP_ID=" ++ str_of_int (conda_gid args)] in
  let other_args := [lit "-i"] in
  let script_args := [lit "/bin/sh"; lit "-c"; build_script] in
  let other_args :=
    if remove_container args then other_args ++ [lit "--rm"]
    else other_args in
  run_cmd ++ mount_args ++ env_args ++ other_args ++ [build_image]
    ++ script_args.

(** The command the loop assembles for a record. *)
Definition plan (name version path : str) : list str :=
  cmd (build_image name version) (build_script path).

(** The message of line 171. *)
Definition description (cmd : list str) : str :=
  lit "Docker command: " ++ [quote2]
    ++ str_of_list (isprintable host) cmd ++ [quote2].

Definition begin_marker : str :=
  lit "########## BEGIN process STDOUT/STDERR ##########".
Definition end_marker : str :=
  lit "########## END process STDOUT/STDERR ##########".

(** Lines 175-191: the build is launched; its output is logged at debug
    level, or, when [CalledProcessError] is caught, [fail] is set and
    the output logged at error level. *)
Definition run_build (cmd : list str) : M unit :=
  try_except_CalledProcessError
    (output_stdout <- subprocess_run cmd ;;
     log DEBUG begin_marker ;;
     text <- decode output_stdout ;;
     for_each (split_lines text) (fun outline => log DEBUG outline) ;;
     log DEBUG end_marker)
    (fun _ _ e_stdout =>
     set_fail true ;;
     log ERROR begin_marker ;;
     text <- decode e_stdout ;;
     for_each (split_lines text) (fun errline => log ERROR errline) ;;
     log ERROR end_marker).

(** Lines 132-191: the body of the loop once the line is parsed. *)
Definition process_record (name version path : str) : M unit :=
  log INFO (lit "Working on " ++ name ++ lit " " ++ version
              ++ lit " " ++ path) ;;
  let build_image := build_image name version in
  (if is_irods_4_1 name version
   then log INFO (lit "Using image " ++ build_image) ;;
        docker_pull (irods_build_image args)
   else ret tt) ;;
  let build_script := build_script path in
  let cmd := cmd build_image build_script in
  if dry_run args
  then log INFO (description cmd)
  else
    log DEBUG (lit "Build script: " ++ [quote2] ++ build_script
                 ++ [quote2]) ;;
    run_build cmd.

(** The body of the loop (lines 130-191) for one line of input.  The
    value of [line.rstrip()] on line 130 is dropped. *)
Definition process_line (line : str) : M unit :=
  let _ := rstrip line in
  fields <- unpack3 (split line) ;;
  let '(name, version, path) := fields in
  process_record name version path.

(** Lines 125-194: the pull of the default image, the loop over the
    lines of standard input and the final [exit(1)]. *)
Definition script (lines : list str) : M unit :=
  docker_pull (conda_build_image args) ;;
  set_fail false ;;
  for_each lines process_line ;;
  fail <- get_fail ;;
  if fail then raise (SystemExit 1) else ret tt.

Definition initial : State := {| fail := false; spawned := 0 |}.

(** The exit status of the interpreter: that of [exit], 1 for an
    exception nobody caught, 0 at the end of the script. *)
Definition exit_status (r : Result unit) : Z :=
  match r with
  | Ok _ => 0
  | Raise (SystemExit code) => code
  | Raise _ => 1
  end.

(** A run of the script on the lines of standard input: its exit status
    and the events it caused. *)
Definition main (lines : list str) : Z * list Event :=
  let '(r, _, t) := script lines initial in
  (exit_status r, t).

End Script.

(** ** Reading a trace *)

(** The argument list is a [docker run]. *)
Definition is_build (argv : list str) : bool :=
  match argv with
  | prog :: sub :: _ => str_eqb prog (lit "docker") && str_eqb sub (lit "run")
  | _ => false
  end.

(** The builds launched, in order. *)
Definition attempts (t : list Event) : list (list str) :=
  flat_map (fun e => match e with
                     | EvSpawn argv _ => if is_build argv then [argv] else []
                     | EvLog _ _ => []
                     end) t.

(** The images pulled, in order. *)
Definition pulls (t : list Event) : list str :=
  flat_map (fun e => match e with
                     | EvSpawn [prog; sub; image] _ =>
                         if str_eqb prog (lit "docker")
                            && str_eqb sub (lit "pull")
                         then [image] else []
                     | _ => []
                     end) t.

Definition is_description (message : str) : bool :=
  str_eqb (slice_to 16 message) (lit "Docker command: ").

(** The dry-run descriptions that reached the log at INFO level. *)
Definition descriptions (t : list Event) : list str :=
  flat_map (fun e => match e with
                     | EvLog INFO m => if is_description m then [m] else []
                     | _ => []
                     end) t.

(** A build that exited with a non-zero status. *)
Definition build_failed (e : Event) : bool :=
  match e with
  | EvSpawn argv (Exited rc _) => is_build argv && negb (rc =? 0)%Z
  | _ => false
  end.

Definition any_build_failed (t : list Event) : bool := existsb build_failed t.

(** A process other than a build (an image pull) that did not start or
    exited with a non-zero status. *)
Definition pull_failed (e : Event) : bool :=
  match e with
  | EvSpawn argv r =>
      negb (is_build argv)
      && match r with Exited rc _ => negb (rc =? 0)%Z | NotStarted => true end
  | EvLog _ _ => false
  end.

(** A build that did not start, or whose output the host's codec does
    not decode. *)
Definition build_lost (host : Host) (e : Event) : bool :=
  match e with
  | EvSpawn argv r =>
      is_build argv
      && match r with
         | Exited _ out =>
             match fs_decode host out with Some _ => false | None => true end
         | NotStarted => true
         end
  | EvLog _ _ => false
  end.

(** The events after which the script does not go on. *)
Definition fatal (host : Host) (e : Event) : bool :=
  pull_failed e || build_lost host e.

(** What [log] hands to the handler. *)
Definition logged (args : Args) (lvl : Level) (message : str) : list Event :=
  if (level_no (level args) <=? level_no lvl)%Z then [EvLog lvl message]
  else [].

(** ** Input lines *)

Definition well_formed (line : str) : Prop := length (split line) = 3%nat.

(** The commands of the well-formed lines, in order. *)
Definition plans (args : Args) (lines : list str) : list (list str) :=
  flat_map (fun line => match split line with
                        | [name; version; path] => [plan args name version path]
                        | _ => []
                        end) lines.

(** The line is a record for which line 135 chooses the irods image. *)
Definition needs_irods_image (line : str) : bool :=
  match split line with
  | [name; version; _] => is_irods_4_1 name version
  | _ => false
  end.

(** The command [c] is the plan of the record on [line]. *)
Definition planned (args : Args) (line : str) (c : list str) : Prop :=
  exists name version path,
    split line = [name; version; path] /\ c = plan args name version path.

(** The statement, trailing blanks apart, ends with a semicolon. *)
Definition semicolon_terminated (statement : str) : bool :=
  match rev (rstrip statement) with
  | c :: _ => (c =? 59)%N
  | [] => false
  end.

(** ** Hosts and command lines of the examples *)

(** The defaults of the argument parser, for a user [u] with ids 1000. *)
Definition defaults : Args := {|
  recipes_dir := lit "/home/u/conda-recipes";
  recipes_mount := lit "/home/conda/recipes";
  artefacts_dir := lit "/home/u/conda-artefacts";
  artefacts_mount := lit "/opt/conda/conda-bld";
  build_channel := [];
  irods_build_image := lit "wsinpg/ub-12.04-conda-irods:latest";
  conda_build_image := lit "wsinpg/ub-12.04-conda:latest";
  remove_container := false;
  conda_uid := 1000;
  conda_gid := 1000;
  dry_run := false;
  debug := false;
  verbose := false |}.

(** The command line [args] with [--dry-run] added. *)
Definition with_dry_run (args : Args) : Args := {|
  recipes_dir := recipes_dir args;
  recipes_mount := recipes_mount args;
  artefacts_dir := artefacts_dir args;
  artefacts_mount := artefacts_mount args;
  build_channel := build_channel args;
  irods_build_image := irods_build_image args;
  conda_build_image := conda_build_image args;
  remove_container := remove_container args;
  conda_uid := conda_uid args;
  conda_gid := conda_gid args;
  dry_run := true;
  debug := debug args;
  verbose := verbose args |}.

(** The command line [args] with [--build-channels channels]. *)
Definition with_channels (channels : list str) (args : Args) : Args := {|
  recipes_dir := recipes_dir args;
  recipes_mount := recipes_mount args;
  artefacts_dir := artefacts_dir args;
  artefacts_mount := artefacts_mount args;
  build_channel := channels;
  irods_build_image := irods_build_image args;
  conda_build_image := conda_build_image args;
  remove_container := remove_container args;
  conda_uid := conda_uid args;
  conda_gid := conda_gid args;
  dry_run := dry_run args;
  debug := debug args;
  verbose := verbose args |}.

(** The defaults with [--dry-run]. *)
Definition defaults_dry_run : Args := with_dry_run defaults.

(** A UTF-8 host on which the [n]-th process exits with [status n] and
    prints [output n].  The examples hold ASCII text only, for which
    [repr] never asks [isprintable]. *)
Definition utf8_host (status : nat -> Z) (output : nat -> bytes) : Host := {|
  fs_decode := utf8_decode;
  isprintable := fun _ => false;
  spawn := fun n _ => Exited (status n) (output n) |}.

(** The bytes of ["ok\n"]. *)
Definition ok_output : bytes := [x6f; x6b; x0a]%byte.

(** Lines as [readlines] returns them, with their end of line. *)
Definition zlib_line : str := lit "zlib 1.2.11 /recipes/zlib" ++ [newline].
Definition irods_line : str := lit "irods 4.1.10 /recipes/irods" ++ [newline].
Definition samtools_line : str :=
  lit "samtools 1.9 /recipes/samtools" ++ [newline].

(** A line with two fields only. *)
Definition short_line : str := lit "samtools 1.9" ++ [newline].

(** Every process exits with status 0 and prints ["ok\n"]. *)
Definition all_succeed : Host := utf8_host (fun _ => 0%Z) (fun _ => ok_output).

(** As [all_succeed], but the process of rank [n] exits with status 1. *)
Definition nth_fails (n : nat) : Host :=
  utf8_host (fun k => if Nat.eqb k n then 1%Z else 0%Z) (fun _ => ok_output).

(** As [nth_fails], and what the failing process prints is the single
    byte 0xff, which is not UTF-8. *)
Definition nth_fails_garbled (n : nat) : Host :=
  utf8_host (fun k => if Nat.eqb k n then 1%Z else 0%Z)
            (fun k => if Nat.eqb k n then [xff]%byte else ok_output).

(** ** What an iteration and the loop start from *)

(** The state in which the loop starts when the first pull succeeded. *)
Definition loop_start : State := {| fail := false; spawned := 1 |}.

(** What one iteration on a parsed record, launching (or describing)
    the command [c], leaves behind. *)
Definition step_spec (host : Host) (args : Args) (s : State) (c : list str)
    (out : Result unit * State * list Event) : Prop :=
  let '(r, s', t) := out in
  (forall code, r <> Raise (SystemExit code))
  /\ (r = Ok tt <-> existsb (fatal host) t = false)
  /\ (attempts t = [] \/ (dry_run args = false /\ attempts t = [c]))
  /\ (r = Ok tt -> attempts t = if dry_run args then [] else [c])
  /\ (descriptions t
      = if dry_run args
        then match r with Ok _ => [description host c] | Raise _ => [] end
        else [])
  /\ fail s' = fail s || any_build_failed t.

(** ** Blanks, fields and log records *)

(** Every code point of [s] is blank. *)
Definition blank (s : str) : bool := forallb isspace s.

(** No code point of [s] is blank. *)
Definition solid (s : str) : bool := forallb (fun c => negb (isspace c)) s.

(** The field that [split_fields] closes when it meets a blank or the
    end of the text: none when nothing was read. *)
Definition flush (acc : str) : list str :=
  match acc with
  | [] => []
  | _ => [rev acc]
  end.

Definition is_log (e : Event) : bool :=
  match e with EvLog _ _ => true | EvSpawn _ _ => false end.

(** A record at ERROR level is in the trace. *)
Definition error_logged (t : list Event) : bool :=
  existsb (fun e => match e with EvLog ERROR _ => true | _ => false end) t.

(** The event, if a log record, is at the configured level or above. *)
Definition level_respected (args : Args) (e : Event) : bool :=
  match e with
  | EvLog lvl _ => (level_no (level args) <=? level_no lvl)%Z
  | EvSpawn _ _ => true
  end.

(** ** Equality of text *)

Lemma str_eqb_eq (a b : str) : str_eqb a b = true <-> a = b.
Proof.
  unfold str_eqb. destruct (list_eq_dec N.eq_dec a b); split; congruence.
Qed.

Lemma str_eqb_refl (a : str) : str_eqb a a = true.
Proof. now apply str_eqb_eq. Qed.

Lemma str_eqb_neq (a b : str) : str_eqb a b = false <-> a <> b.
Proof.
  unfold str_eqb. destruct (list_eq_dec N.eq_dec a b); split; congruence.
Qed.

(** ** Image selection (lines 134-136) *)

Lemma slice_to_prefix (p rest : str) :
  slice_to (length p) (p ++ rest) = p.
Proof.
  unfold slice_to. rewrite firstn_app, Nat.sub_diag, firstn_all. cbn.
  apply app_nil_r.
Qed.

Lemma slice_to_split (n : nat) (s : str) :
  s = slice_to n s ++ skipn n s.
Proof. unfold slice_to. symmetry. apply firstn_skipn. Qed.

Lemma is_irods_4_1_iff (name version : str) :
  is_irods_4_1 name version = true <->
  name = lit "irods" /\ exists rest, version = lit "4.1." ++ rest.
Proof.
  unfold is_irods_4_1. rewrite andb_true_iff, !str_eqb_eq. split.
  - intros [Hn Hv]. split; [exact Hn|].
    exists (skipn 4 version). rewrite <- Hv. apply slice_to_split.
  - intros [Hn [rest Hv]]. split; [exact Hn|].
    subst version. exact (slice_to_prefix (lit "4.1.") rest).
Qed.

(** C3. The image chosen for a record is the irods build image when the
    name is "irods" and the version starts with "4.1.", and the default
    build image for every other name and version; being a function of
    the name and the version, the choice always yields an image. *)
Theorem build_image_policy (args : Args) (name version : str) :
  (name = lit "irods" /\ (exists rest, version = lit "4.1." ++ rest) ->
   build_image args name version = irods_build_image args)
  /\ (~ (name = lit "irods" /\ exists rest, version = lit "4.1." ++ rest) ->
      build_image args name version = conda_build_image args).
Proof.
  unfold build_image. split; intro H.
  - apply is_irods_4_1_iff in H. now rewrite H.
  - destruct (is_irods_4_1 name version) eqn:E; [|reflexivity].
    apply is_irods_4_1_iff in E. contradiction.
Qed.

Lemma build_image_policy_witness :
  build_image defaults (lit "irods") (lit "4.1.10") = irods_build_image defaults
  /\ build_image defaults (lit "irods") (lit "4.2.0") = conda_build_image defaults
  /\ build_image defaults (lit "samtools") (lit "4.1.10")
     = conda_build_image defaults.
Proof.
  split; [|split].
  - apply (proj1 (build_image_policy defaults (lit "irods") (lit "4.1.10"))).
    split; [reflexivity|]. exists (lit "10"). reflexivity.
  - apply (proj2 (build_image_policy defaults (lit "irods") (lit "4.2.0"))).
    intros [_ [rest H]]. vm_compute in H. discriminate H.
  - apply (proj2 (build_image_policy defaults (lit "samtools") (lit "4.1.10"))).
    intros [H _]. vm_compute in H. discriminate H.
Defined.

(** C10. Taking the first four characters of a version shorter than four
    characters yields the version itself, and such a version, under any
    name, "irods" included, is given the default build image. *)
Theorem build_image_short_version (args : Args) (name version : str) :
  (length version < 4)%nat ->
  slice_to 4 version = version
  /\ build_image args name version = conda_build_image args.
Proof.
  intro Hlen.
  assert (Hs : slice_to 4 version = version)
    by (unfold slice_to; apply firstn_all2; lia).
  split; [exact Hs|].
  unfold build_image, is_irods_4_1. rewrite Hs.
  destruct (str_eqb version (lit "4.1.")) eqn:E.
  - apply str_eqb_eq in E. subst version. cbn in Hlen. lia.
  - now rewrite andb_false_r.
Qed.

Lemma build_image_short_version_witness :
  slice_to 4 (lit "4.1") = lit "4.1"
  /\ build_image defaults (lit "irods") (lit "4.1") = conda_build_image defaults.
Proof.
  apply (build_image_short_version defaults (lit "irods") (lit "4.1")).
  cbn. lia.
Defined.

(** ** The shell script (lines 140-150) *)

Lemma fold_left_append (f : str -> str) (l : list str) (init : str) :
  fold_left (fun script x => script ++ f x) l init
  = init ++ concat (map f l).
Proof.
  revert init. induction l as [|x l IH]; intro init; cbn.
  - now rewrite app_nil_r.
  - rewrite IH. now rewrite <- app_assoc.
Qed.

Lemma semicolon_terminated_intro (body : str) :
  semicolon_terminated (body ++ lit " ; ") = true.
Proof.
  unfold semicolon_terminated, rstrip.
  rewrite rev_app_distr. cbn. rewrite rev_involutive.
  rewrite rev_app_distr. reflexivity.
Qed.

(** C5, as the script is built.  The script is, in this order: the
    export of the artefacts mount, the statement that turns auto-update
    off, one channel statement per configured channel in the configured
    order (none for an empty list), each of these ending in " ; ", and
    last the change of directory with the build of the recipe path, which
    is appended without a terminator. *)
Theorem build_script_layout (args : Args) (path : str) :
  build_script args path
  = (lit "export CONDA_BLD_PATH=" ++ [quote2] ++ artefacts_mount args
       ++ [quote2] ++ lit " ; ")
    ++ lit "conda config --set auto_update_conda False ; "
    ++ concat (map (fun channel =>
                      lit "conda config --add channels " ++ channel
                        ++ lit " ; ") (build_channel args))
    ++ (lit "cd " ++ [quote2] ++ recipes_mount args ++ [quote2]
          ++ lit " && conda build " ++ path)
  /\ semicolon_terminated (export_statement args) = true
  /\ semicolon_terminated auto_update_statement = true
  /\ Forall (fun channel =>
               semicolon_terminated (channel_statement channel) = true)
       (build_channel args)
  /\ (build_channel args = [] ->
      build_script args path
      = export_statement args ++ auto_update_statement
          ++ build_statement args path).
Proof.
  assert (E : build_script args path
              = export_statement args ++ auto_update_statement
                  ++ concat (map channel_statement (build_channel args))
                  ++ build_statement args path).
  { unfold build_script. rewrite fold_left_append.
    now rewrite <- !app_assoc. }
  split; [exact E|]. split; [|split; [|split]].
  - unfold export_statement.
    rewrite !app_assoc. apply semicolon_terminated_intro.
  - exact (semicolon_terminated_intro
             (lit "conda config --set auto_update_conda False")).
  - apply Forall_forall. intros channel _. unfold channel_statement.
    rewrite app_assoc. apply semicolon_terminated_intro.
  - intro Hnil. rewrite E, Hnil. reflexivity.
Qed.

Lemma build_script_layout_witness :
  build_script defaults (lit "/recipes/zlib")
  = export_statement defaults ++ auto_update_statement
      ++ build_statement defaults (lit "/recipes/zlib").
Proof.
  apply (build_script_layout defaults (lit "/recipes/zlib")). reflexivity.
Defined.

(** Two channels: their statements come in the order of the command
    line, between the auto-update statement and the build. *)
Example build_script_two_channels :
  build_script (with_channels [lit "conda-forge"; lit "bioconda"] defaults)
    (lit "/recipes/zlib")
  = lit "export CONDA_BLD_PATH=" ++ [quote2] ++ lit "/opt/conda/conda-bld"
      ++ [quote2] ++ lit " ; "
      ++ lit "conda config --set auto_update_conda False ; "
      ++ lit "conda config --add channels conda-forge ; "
      ++ lit "conda config --add channels bioconda ; "
      ++ lit "cd " ++ [quote2] ++ lit "/home/conda/recipes" ++ [quote2]
      ++ lit " && conda build /recipes/zlib".
Proof. vm_compute. reflexivity. Qed.

(** C5, as claimed, fails on the last step: what it appends does not end
    in a semicolon, and neither does the script. *)
Lemma build_statement_unterminated :
  semicolon_terminated (build_statement defaults (lit "/recipes/zlib")) = false
  /\ semicolon_terminated (build_script defaults (lit "/recipes/zlib")) = false.
Proof. split; vm_compute; reflexivity. Qed.

(** ** The command (lines 152-168) *)

(** C6. The command of a record is, in this order: [docker run]; the
    bind mount of the recipes, then that of the artefacts; the user id,
    then the group id, each after [-e]; [-i], followed by [--rm] exactly
    when the container is to be removed; the image chosen for the record;
    [/bin/sh -c] with the whole script as one argument. *)
Theorem plan_layout (args : Args) (name version path : str) :
  plan args name version path
  = [lit "docker"; lit "run";
     lit "--mount";
     lit "source=" ++ recipes_dir args ++ lit ",target="
       ++ recipes_mount args ++ lit ",type=bind";
     lit "--mount";
     lit "source=" ++ artefacts_dir args ++ lit ",target="
       ++ artefacts_mount args ++ lit ",type=bind";
     lit "-e"; lit "CONDA_USER_ID=" ++ str_of_int (conda_uid args);
     lit "-e"; lit "CONDA_GROUP_ID=" ++ str_of_int (conda_gid args);
     lit "-i"]
    ++ (if remove_container args then [lit "--rm"] else [])
    ++ [build_image args name version;
        lit "/bin/sh"; lit "-c"; build_script args path].
Proof.
  unfold plan, cmd. destruct (remove_container args); reflexivity.
Qed.

(** ** Running statements *)

Section Execution.

Variable host : Host.
Variable args : Args.

Lemma log_run (lvl : Level) (m : str) (s : State) :
  log args lvl m s = (Ok tt, s, logged args lvl m).
Proof.
  unfold log, logged. destruct (level_no (level args) <=? level_no lvl)%Z;
    reflexivity.
Qed.

Lemma for_each_log (lvl : Level) (l : list str) (s : State) :
  for_each l (fun x => log args lvl x) s
  = (Ok tt, s, flat_map (logged args lvl) l).
Proof.
  induction l as [|x l IH]; cbn; [reflexivity|].
  unfold bind. now rewrite log_run, IH.
Qed.

Lemma attempts_app (t1 t2 : list Event) :
  attempts (t1 ++ t2) = attempts t1 ++ attempts t2.
Proof. apply flat_map_app. Qed.

Lemma descriptions_app (t1 t2 : list Event) :
  descriptions (t1 ++ t2) = descriptions t1 ++ descriptions t2.
Proof. apply flat_map_app. Qed.

Lemma pulls_app (t1 t2 : list Event) :
  pulls (t1 ++ t2) = pulls t1 ++ pulls t2.
Proof. apply flat_map_app. Qed.

Lemma any_build_failed_app (t1 t2 : list Event) :
  any_build_failed (t1 ++ t2) = any_build_failed t1 || any_build_failed t2.
Proof. apply existsb_app. Qed.

Lemma attempts_logged (lvl : Level) (m : str) :
  attempts (logged args lvl m) = [].
Proof. unfold logged. now destruct (_ <=? _)%Z. Qed.

Lemma pulls_logged (lvl : Level) (m : str) :
  pulls (logged args lvl m) = [].
Proof. unfold logged. now destruct (_ <=? _)%Z. Qed.

Lemma any_build_failed_logged (lvl : Level) (m : str) :
  any_build_failed (logged args lvl m) = false.
Proof. unfold logged. now destruct (_ <=? _)%Z. Qed.

Lemma fatal_logged (lvl : Level) (m : str) :
  existsb (fatal host) (logged args lvl m) = false.
Proof. unfold logged. now destruct (_ <=? _)%Z. Qed.

Lemma attempts_logged_lines (lvl : Level) (l : list str) :
  attempts (flat_map (logged args lvl) l) = [].
Proof.
  induction l as [|x l IH]; cbn; [reflexivity|].
  now rewrite attempts_app, attempts_logged, IH.
Qed.

Lemma pulls_logged_lines (lvl : Level) (l : list str) :
  pulls (flat_map (logged args lvl) l) = [].
Proof.
  induction l as [|x l IH]; cbn; [reflexivity|].
  now rewrite pulls_app, pulls_logged, IH.
Qed.

Lemma any_build_failed_logged_lines (lvl : Level) (l : list str) :
  any_build_failed (flat_map (logged args lvl) l) = false.
Proof.
  induction l as [|x l IH]; cbn; [reflexivity|].
  now rewrite any_build_failed_app, any_build_failed_logged, IH.
Qed.

Lemma fatal_logged_lines (lvl : Level) (l : list str) :
  existsb (fatal host) (flat_map (logged args lvl) l) = false.
Proof.
  induction l as [|x l IH]; cbn; [reflexivity|].
  now rewrite existsb_app, fatal_logged, IH.
Qed.

Lemma descriptions_logged_other (lvl : Level) (m : str) :
  lvl <> INFO \/ is_description m = false ->
  descriptions (logged args lvl m) = [].
Proof.
  unfold logged. destruct (_ <=? _)%Z; [|reflexivity].
  intros [H|H]; cbn.
  - now destruct lvl.
  - rewrite H. now destruct lvl.
Qed.

Lemma descriptions_logged_lines (lvl : Level) (l : list str) :
  lvl <> INFO -> descriptions (flat_map (logged args lvl) l) = [].
Proof.
  intro H. induction l as [|x l IH]; cbn; [reflexivity|].
  rewrite descriptions_app, IH, descriptions_logged_other; auto.
Qed.

Lemma is_build_cmd (image script : str) :
  is_build (cmd args image script) = true.
Proof. reflexivity. Qed.

Lemma is_build_pull (image : str) :
  is_build [lit "docker"; lit "pull"; image] = false.
Proof. reflexivity. Qed.

Lemma is_description_description (c : list str) :
  is_description (description host c) = true.
Proof. reflexivity. Qed.

Lemma is_description_working (rest : str) :
  is_description (lit "Working on " ++ rest) = false.
Proof. reflexivity. Qed.

Lemma is_description_using (rest : str) :
  is_description (lit "Using image " ++ rest) = false.
Proof. reflexivity. Qed.

(** With [--dry-run] the level is INFO, or DEBUG with [--debug]: records
    logged at INFO reach the handler. *)
Lemma dry_run_logs_info (m : str) :
  dry_run args = true -> logged args INFO m = [EvLog INFO m].
Proof.
  intro H. unfold logged, level. rewrite H, orb_true_r.
  now destruct (debug args).
Qed.

End Execution.

(** ** One iteration of the loop *)

Section Steps.

Variable host : Host.
Variable args : Args.

Lemma attempts_pull (image : str) (r : ProcResult) :
  attempts [EvSpawn (pull_argv image) r] = [].
Proof. reflexivity. Qed.

Lemma attempts_build (image script : str) (r : ProcResult) :
  attempts [EvSpawn (cmd args image script) r] = [cmd args image script].
Proof. reflexivity. Qed.

Lemma descriptions_spawn (argv : list str) (r : ProcResult) :
  descriptions [EvSpawn argv r] = [].
Proof. reflexivity. Qed.

Lemma descriptions_working (rest : str) :
  descriptions (logged args INFO (lit "Working on " ++ rest)) = [].
Proof. apply descriptions_logged_other. right. reflexivity. Qed.

Lemma descriptions_using (rest : str) :
  descriptions (logged args INFO (lit "Using image " ++ rest)) = [].
Proof. apply descriptions_logged_other. right. reflexivity. Qed.

Lemma descriptions_debug (m : str) : descriptions (logged args DEBUG m) = [].
Proof. apply descriptions_logged_other. left. discriminate. Qed.

Lemma descriptions_error (m : str) : descriptions (logged args ERROR m) = [].
Proof. apply descriptions_logged_other. left. discriminate. Qed.

Lemma descriptions_debug_lines (l : list str) :
  descriptions (flat_map (logged args DEBUG) l) = [].
Proof. apply descriptions_logged_lines. discriminate. Qed.

Lemma descriptions_error_lines (l : list str) :
  descriptions (flat_map (logged args ERROR) l) = [].
Proof. apply descriptions_logged_lines. discriminate. Qed.

Lemma fatal_pull (image : str) (rc : Z) (out : bytes) :
  existsb (fatal host) [EvSpawn (pull_argv image) (Exited rc out)]
  = negb (rc =? 0)%Z.
Proof.
  unfold existsb, fatal, pull_failed, build_lost.
  change (is_build (pull_argv image)) with false.
  now destruct (rc =? 0)%Z.
Qed.

Lemma fatal_pull_not_started (image : str) :
  existsb (fatal host) [EvSpawn (pull_argv image) NotStarted] = true.
Proof. reflexivity. Qed.

Lemma fatal_build (image script : str) (rc : Z) (out : bytes) :
  existsb (fatal host) [EvSpawn (cmd args image script) (Exited rc out)]
  = match fs_decode host out with Some _ => false | None => true end.
Proof.
  unfold existsb, fatal, pull_failed, build_lost.
  change (is_build (cmd args image script)) with true.
  now destruct (fs_decode host out).
Qed.

Lemma fatal_build_not_started (image script : str) :
  existsb (fatal host) [EvSpawn (cmd args image script) NotStarted] = true.
Proof. reflexivity. Qed.

Lemma any_build_failed_pull (image : str) (r : ProcResult) :
  any_build_failed [EvSpawn (pull_argv image) r] = false.
Proof. now destruct r. Qed.

Lemma any_build_failed_build (image script : str) (rc : Z) (out : bytes) :
  any_build_failed [EvSpawn (cmd args image script) (Exited rc out)]
  = negb (rc =? 0)%Z.
Proof.
  unfold any_build_failed, existsb, build_failed.
  change (is_build (cmd args image script)) with true.
  now destruct (rc =? 0)%Z.
Qed.

Lemma any_build_failed_not_started (argv : list str) :
  any_build_failed [EvSpawn argv NotStarted] = false.
Proof. reflexivity. Qed.

Lemma existsb_nil_fatal : existsb (fatal host) [] = false.
Proof. reflexivity. Qed.

Lemma descriptions_description (c : list str) :
  descriptions [EvLog INFO (description host c)] = [description host c].
Proof. reflexivity. Qed.

Lemma attempts_log (lvl : Level) (m : str) : attempts [EvLog lvl m] = [].
Proof. reflexivity. Qed.

Lemma fatal_log (lvl : Level) (m : str) :
  existsb (fatal host) [EvLog lvl m] = false.
Proof. reflexivity. Qed.

Lemma any_build_failed_log (lvl : Level) (m : str) :
  any_build_failed [EvLog lvl m] = false.
Proof. reflexivity. Qed.

Create Rewrite HintDb trace.

#[local] Hint Rewrite attempts_app descriptions_app any_build_failed_app
  (@existsb_app Event)
  (attempts_logged args) (attempts_logged_lines args)
  (any_build_failed_logged args) (any_build_failed_logged_lines args)
  (fatal_logged host args) (fatal_logged_lines host args)
  attempts_pull attempts_build descriptions_spawn
  descriptions_working descriptions_using descriptions_debug
  descriptions_error descriptions_debug_lines descriptions_error_lines
  fatal_pull fatal_pull_not_started fatal_build fatal_build_not_started
  any_build_failed_pull any_build_failed_build any_build_failed_not_started
  existsb_nil_fatal descriptions_description attempts_log fatal_log
  any_build_failed_log
  orb_false_r orb_false_l orb_true_r orb_true_l app_nil_r app_nil_l : trace.

Ltac exec :=
  repeat first
    [ rewrite log_run
    | rewrite for_each_log
    | progress cbv beta iota zeta
    | progress cbn [spawned fail] ].

Ltac finish :=
  try match goal with
      | H : dry_run args = true |- _ =>
          rewrite (dry_run_logs_info args (description host _) H)
      end;
  autorewrite with trace;
  repeat match goal with
         | H : (_ =? 0)%Z = _ |- _ => rewrite H
         | H : fs_decode host _ = _ |- _ => rewrite H
         end;
  cbn [negb fail orb app];
  autorewrite with trace;
  repeat split; intros; try congruence; auto.

Ltac launch :=
  exec;
  match goal with
  | |- context [spawn host ?n (cmd args ?i ?b)] =>
      destruct (spawn host n (cmd args i b)) as [rc' out'|] eqn:Hrun;
      [ destruct (rc' =? 0)%Z eqn:Hrc'; exec;
        destruct (fs_decode host out') eqn:Hdec; exec; finish
      | finish ]
  end.

Lemma process_record_spec (name version path : str) (s : State) :
  step_spec host args s (plan args name version path)
    (process_record host args name version path s).
Proof.
  unfold step_spec, process_record, run_build, docker_pull, check_output,
    subprocess_run, try_except_CalledProcessError, decode, set_fail, bind,
    ret, raise, plan.
  destruct (dry_run args) eqn:Hdry;
    destruct (is_irods_4_1 name version) eqn:Hirods; exec.
  - destruct (spawn host (spawned s) (pull_argv (irods_build_image args)))
      as [rc out|] eqn:Hpull; [destruct (rc =? 0)%Z eqn:Hrc|]; exec; finish.
  - finish.
  - destruct (spawn host (spawned s) (pull_argv (irods_build_image args)))
      as [rc out|] eqn:Hpull; [destruct (rc =? 0)%Z eqn:Hrc|]; exec;
      [launch | finish | finish].
  - launch.
Qed.

Lemma process_line_parsed (line name version path : str) (s : State) :
  split line = [name; version; path] ->
  process_line host args line s = process_record host args name version path s.
Proof.
  intro H. unfold process_line, unpack3, bind, ret. rewrite H.
  now destruct (process_record host args name version path s) as [[r s'] t].
Qed.

Lemma process_line_malformed (line : str) (s : State) :
  ~ well_formed line ->
  process_line host args line s = (Raise ValueError, s, []).
Proof.
  unfold well_formed, process_line, unpack3, bind, raise. intro H.
  destruct (split line) as [|a [|b [|c [|d l]]]]; cbn in H; try reflexivity.
  now contradiction H.
Qed.

Lemma well_formed_parsed (line : str) :
  well_formed line ->
  exists name version path, split line = [name; version; path].
Proof.
  unfold well_formed. intro H.
  destruct (split line) as [|a [|b [|c [|d l]]]]; try discriminate H.
  now exists a, b, c.
Qed.

Lemma well_formed_dec (line : str) : {well_formed line} + {~ well_formed line}.
Proof. unfold well_formed. apply Nat.eq_dec. Qed.

Lemma plans_cons_parsed (line name version path : str) (lines : list str) :
  split line = [name; version; path] ->
  plans args (line :: lines) = plan args name version path :: plans args lines.
Proof. intro H. unfold plans. cbn. now rewrite H. Qed.

(** ** The loop *)

(** Whatever the lines: the loop never raises [SystemExit], launches
    nothing under dry-run, launches a prefix of the plans in their order,
    and leaves [fail] set exactly when it was set or a build it launched
    exited with a non-zero status. *)
Lemma loop_any (lines : list str) :
  forall s r s' t,
    for_each lines (process_line host args) s = (r, s', t) ->
    (forall code, r <> Raise (SystemExit code))
    /\ (dry_run args = true -> attempts t = [])
    /\ (exists k, attempts t = firstn k (plans args lines))
    /\ fail s' = fail s || any_build_failed t.
Proof.
  induction lines as [|line lines IH]; intros s r s' t Hrun.
  - cbn in Hrun. injection Hrun as <- <- <-.
    repeat split; try discriminate; try reflexivity.
    + now exists 0%nat.
    + cbn. now rewrite orb_false_r.
  - cbn [for_each] in Hrun. unfold bind in Hrun.
    destruct (well_formed_dec line) as [Hwf|Hwf].
    + destruct (well_formed_parsed line Hwf) as (name & version & path & Hp).
      rewrite (process_line_parsed _ _ _ _ s Hp) in Hrun.
      rewrite (plans_cons_parsed _ _ _ _ lines Hp).
      pose proof (process_record_spec name version path s) as Hstep.
      unfold step_spec in Hstep.
      destruct (process_record host args name version path s)
        as [[r1 s1] t1].
      destruct Hstep as (Hexit & _ & Hsome & Hall & _ & Hfail).
      destruct r1 as [[]|e].
      * destruct (for_each lines (process_line host args) s1)
          as [[r2 s2] t2] eqn:Hrest.
        injection Hrun as <- <- <-.
        destruct (IH _ _ _ _ Hrest) as (Hexit2 & Hdry2 & [k Hk] & Hfail2).
        specialize (Hall eq_refl).
        rewrite attempts_app, any_build_failed_app, Hall.
        repeat split.
        -- exact Hexit2.
        -- intro Hdry. rewrite Hdry. cbn. now apply Hdry2.
        -- destruct (dry_run args) eqn:Hdry.
           ++ exists 0%nat. cbn. now apply Hdry2.
           ++ exists (S k). cbn. now rewrite Hk.
        -- rewrite Hfail2, Hfail. now rewrite orb_assoc.
      * injection Hrun as <- <- <-. repeat split.
        -- exact Hexit.
        -- intro Hdry. destruct Hsome as [H|[H _]]; congruence.
        -- destruct Hsome as [H|[_ H]]; rewrite H.
           ++ now exists 0%nat.
           ++ now exists 1%nat.
        -- exact Hfail.
    + rewrite (process_line_malformed line s Hwf) in Hrun.
      injection Hrun as <- <- <-. repeat split; try discriminate.
      * now exists 0%nat.
      * cbn. now rewrite orb_false_r.
Qed.

(** On well-formed lines: the loop ends normally exactly when no fatal
    event occurs, and then every line was launched (or, under dry-run,
    described), in the order of the lines. *)
Lemma loop_well_formed (lines : list str) :
  Forall well_formed lines ->
  forall s r s' t,
    for_each lines (process_line host args) s = (r, s', t) ->
    (r = Ok tt <-> existsb (fatal host) t = false)
    /\ (r = Ok tt ->
        attempts t = (if dry_run args then [] else plans args lines)
        /\ descriptions t
           = (if dry_run args
              then map (description host) (plans args lines) else [])).
Proof.
  induction 1 as [|line lines Hwf _ IH]; intros s r s' t Hrun.
  - cbn in Hrun. injection Hrun as <- <- <-.
    repeat split; auto; now destruct (dry_run args).
  - cbn [for_each] in Hrun. unfold bind in Hrun.
    destruct (well_formed_parsed line Hwf) as (name & version & path & Hp).
    rewrite (process_line_parsed _ _ _ _ s Hp) in Hrun.
    rewrite (plans_cons_parsed _ _ _ _ lines Hp).
    pose proof (process_record_spec name version path s) as Hstep.
    unfold step_spec in Hstep.
    destruct (process_record host args name version path s) as [[r1 s1] t1].
    destruct Hstep as (_ & Hfatal & _ & Hall & Hdesc & _).
    destruct r1 as [[]|e].
    + destruct (for_each lines (process_line host args) s1)
        as [[r2 s2] t2] eqn:Hrest.
      injection Hrun as <- <- <-.
      destruct (IH _ _ _ _ Hrest) as (Hfatal2 & Hall2).
      rewrite existsb_app, attempts_app, descriptions_app, Hdesc,
        (Hall eq_refl), (proj1 Hfatal eq_refl). cbn [orb].
      split; [exact Hfatal2|].
      intro Hok. destruct (Hall2 Hok) as [-> ->].
      now destruct (dry_run args).
    + injection Hrun as <- <- <-. split.
      * split; [discriminate|]. intro H. now apply Hfatal in H.
      * discriminate.
Qed.

Lemma pulls_pull (image : str) (r : ProcResult) :
  pulls [EvSpawn (pull_argv image) r] = [image].
Proof. reflexivity. Qed.

Lemma pulls_build (image script : str) (r : ProcResult) :
  pulls [EvSpawn (cmd args image script) r] = [].
Proof. unfold cmd. now destruct (remove_container args). Qed.

Lemma pulls_log (lvl : Level) (m : str) : pulls [EvLog lvl m] = [].
Proof. reflexivity. Qed.

#[local] Hint Rewrite pulls_app (pulls_logged args)
  (pulls_logged_lines args) pulls_pull pulls_build pulls_log : trace.

(** Every iteration on a record for which the irods image is chosen
    pulls that image, and an iteration pulls nothing else. *)
Lemma process_record_pulls (name version path : str) (s : State) :
  pulls (snd (process_record host args name version path s))
  = if is_irods_4_1 name version then [irods_build_image args] else [].
Proof.
  unfold process_record, run_build, docker_pull, check_output,
    subprocess_run, try_except_CalledProcessError, decode, set_fail, bind,
    ret, raise, plan.
  destruct (dry_run args) eqn:Hdry;
    destruct (is_irods_4_1 name version) eqn:Hirods; exec.
  - destruct (spawn host (spawned s) (pull_argv (irods_build_image args)))
      as [rc out|] eqn:Hpull; [destruct (rc =? 0)%Z eqn:Hrc|]; exec;
      cbn [snd]; finish.
  - cbn [snd]; finish.
  - destruct (spawn host (spawned s) (pull_argv (irods_build_image args)))
      as [rc out|] eqn:Hpull; [destruct (rc =? 0)%Z eqn:Hrc|]; exec;
      [|cbn [snd]; finish|cbn [snd]; finish].
    exec.
    match goal with
    | |- context [spawn host ?n (cmd args ?i ?b)] =>
        destruct (spawn host n (cmd args i b)) as [rc' out'|] eqn:Hrun;
        [ destruct (rc' =? 0)%Z eqn:Hrc'; exec;
          destruct (fs_decode host out') eqn:Hdec; exec; cbn [snd]; finish
        | cbn [snd]; finish ]
    end.
  - exec.
    match goal with
    | |- context [spawn host ?n (cmd args ?i ?b)] =>
        destruct (spawn host n (cmd args i b)) as [rc' out'|] eqn:Hrun;
        [ destruct (rc' =? 0)%Z eqn:Hrc'; exec;
          destruct (fs_decode host out') eqn:Hdec; exec; cbn [snd]; finish
        | cbn [snd]; finish ]
    end.
Qed.

Lemma loop_pulls (lines : list str) :
  Forall well_formed lines ->
  forall s s' t,
    for_each lines (process_line host args) s = (Ok tt, s', t) ->
    pulls t
    = map (fun _ => irods_build_image args) (filter needs_irods_image lines).
Proof.
  induction 1 as [|line lines Hwf _ IH]; intros s s' t Hrun.
  - cbn in Hrun. now injection Hrun as <- <-.
  - cbn [for_each] in Hrun. unfold bind in Hrun.
    destruct (well_formed_parsed line Hwf) as (name & version & path & Hp).
    rewrite (process_line_parsed _ _ _ _ s Hp) in Hrun.
    pose proof (process_record_pulls name version path s) as Hpulls.
    destruct (process_record host args name version path s) as [[r1 s1] t1].
    cbn [snd] in Hpulls.
    destruct r1 as [[]|e]; [|discriminate Hrun].
    destruct (for_each lines (process_line host args) s1)
      as [[r2 s2] t2] eqn:Hrest.
    injection Hrun as -> <- <-.
    rewrite pulls_app, Hpulls, (IH _ _ _ Hrest).
    cbn [filter]. unfold needs_irods_image at 2. rewrite Hp.
    now destruct (is_irods_4_1 name version).
Qed.

(** *** What an iteration logs, and how a pull ends it *)

Lemma error_logged_app (t1 t2 : list Event) :
  error_logged (t1 ++ t2) = error_logged t1 || error_logged t2.
Proof. apply existsb_app. Qed.

Lemma error_logged_info (m : str) : error_logged (logged args INFO m) = false.
Proof. unfold logged. now destruct (_ <=? _)%Z. Qed.

Lemma error_logged_debug (m : str) :
  error_logged (logged args DEBUG m) = false.
Proof. unfold logged. now destruct (_ <=? _)%Z. Qed.

Lemma error_logged_debug_lines (l : list str) :
  error_logged (flat_map (logged args DEBUG) l) = false.
Proof.
  induction l as [|x l IH]; cbn; [reflexivity|].
  now rewrite error_logged_app, error_logged_debug, IH.
Qed.

(** Records at ERROR level reach the handler at every configured
    level. *)
Lemma logged_error (m : str) : logged args ERROR m = [EvLog ERROR m].
Proof.
  unfold logged, level.
  now destruct (debug args), (verbose args || dry_run args).
Qed.

Lemma error_logged_error (m : str) :
  error_logged (logged args ERROR m) = true.
Proof. now rewrite logged_error. Qed.

Lemma error_logged_spawn (argv : list str) (r : ProcResult) :
  error_logged [EvSpawn argv r] = false.
Proof. reflexivity. Qed.

Lemma level_respected_logged (lvl : Level) (m : str) :
  forallb (level_respected args) (logged args lvl m) = true.
Proof.
  unfold logged. destruct (level_no (level args) <=? level_no lvl)%Z eqn:E;
    [|reflexivity].
  cbn. now rewrite E.
Qed.

Lemma level_respected_logged_lines (lvl : Level) (l : list str) :
  forallb (level_respected args) (flat_map (logged args lvl) l) = true.
Proof.
  induction l as [|x l IH]; cbn; [reflexivity|].
  now rewrite forallb_app, level_respected_logged, IH.
Qed.

Lemma level_respected_spawn (argv : list str) (r : ProcResult) :
  forallb (level_respected args) [EvSpawn argv r] = true.
Proof. reflexivity. Qed.

Lemma pull_failed_logged (lvl : Level) (m : str) :
  existsb pull_failed (logged args lvl m) = false.
Proof. unfold logged. now destruct (_ <=? _)%Z. Qed.

Lemma pull_failed_logged_lines (lvl : Level) (l : list str) :
  existsb pull_failed (flat_map (logged args lvl) l) = false.
Proof.
  induction l as [|x l IH]; cbn; [reflexivity|].
  now rewrite existsb_app, pull_failed_logged, IH.
Qed.

Lemma pull_failed_build (image script : str) (r : ProcResult) :
  existsb pull_failed [EvSpawn (cmd args image script) r] = false.
Proof. reflexivity. Qed.

Lemma pull_failed_pull (image : str) (rc : Z) (out : bytes) :
  existsb pull_failed [EvSpawn (pull_argv image) (Exited rc out)]
  = negb (rc =? 0)%Z.
Proof.
  unfold existsb, pull_failed.
  change (is_build (pull_argv image)) with false.
  now destruct (rc =? 0)%Z.
Qed.

Lemma pull_failed_pull_not_started (image : str) :
  existsb pull_failed [EvSpawn (pull_argv image) NotStarted] = true.
Proof. reflexivity. Qed.

#[local] Hint Rewrite error_logged_app error_logged_info error_logged_debug
  error_logged_debug_lines error_logged_error error_logged_spawn
  (@forallb_app Event) level_respected_logged level_respected_logged_lines
  level_respected_spawn pull_failed_logged pull_failed_logged_lines
  pull_failed_build pull_failed_pull pull_failed_pull_not_started
  andb_true_l andb_true_r : trace.

(** The cases of an iteration: whether the pull and the build start,
    how they exit, whether the output decodes. *)
Ltac cases :=
  unfold process_record, run_build, docker_pull, check_output,
    subprocess_run, try_except_CalledProcessError, decode, set_fail, bind,
    ret, raise, plan;
  repeat (exec;
          match goal with
          | |- context [spawn host ?n ?a] =>
              destruct (spawn host n a) as [?rc ?out|] eqn:?
          | |- context [if (?rc =? 0)%Z then _ else _] =>
              destruct (rc =? 0)%Z eqn:?
          | |- context [match fs_decode host ?o with _ => _ end] =>
              destruct (fs_decode host o) eqn:?
          | |- context [if is_irods_4_1 ?n ?v then _ else _] =>
              destruct (is_irods_4_1 n v) eqn:?
          | |- context [if dry_run args then _ else _] =>
              destruct (dry_run args) eqn:?
          end);
  exec; cbn [snd fst].

Ltac settle :=
  autorewrite with trace;
  repeat match goal with
         | H : (_ =? 0)%Z = _ |- _ => rewrite H
         end;
  cbn [negb orb andb];
  autorewrite with trace.

(** The records of an iteration are at the configured level or above,
    and one of them is at ERROR level exactly when the build was launched
    and exited with a non-zero status. *)
Lemma process_record_logs (name version path : str) (s : State) :
  forallb (level_respected args)
    (snd (process_record host args name version path s)) = true
  /\ error_logged (snd (process_record host args name version path s))
     = any_build_failed (snd (process_record host args name version path s)).
Proof. cases; settle; split; reflexivity. Qed.

(** A pull that fails is the last thing its iteration does. *)
Lemma process_record_pull_failed (name version path : str) (s : State) :
  existsb pull_failed (snd (process_record host args name version path s))
  = true ->
  exists t0 e,
    snd (process_record host args name version path s) = t0 ++ [e]
    /\ pull_failed e = true.
Proof.
  cases; intro H; autorewrite with trace in H;
    repeat match goal with
           | E : (_ =? 0)%Z = _ |- _ => rewrite E in H
           end;
    cbn [negb orb] in H; try discriminate H;
    cbn [app]; eexists (_ ++ _), _; (split; [apply app_assoc|]);
    unfold pull_failed; change (is_build (pull_argv ?i)) with false;
    cbn [negb andb];
    repeat match goal with
           | E : (_ =? 0)%Z = _ |- _ => rewrite E
           end;
    reflexivity.
Qed.

(** *** The build statement (lines 175-191) *)

Lemma is_log_logged (lvl : Level) (m : str) :
  forallb is_log (logged args lvl m) = true.
Proof. unfold logged. now destruct (_ <=? _)%Z. Qed.

Lemma is_log_logged_lines (lvl : Level) (l : list str) :
  forallb is_log (flat_map (logged args lvl) l) = true.
Proof.
  induction l as [|x l IH]; cbn; [reflexivity|].
  now rewrite forallb_app, is_log_logged, IH.
Qed.

#[local] Hint Rewrite is_log_logged is_log_logged_lines : trace.

Lemma logged_debug (m : str) :
  logged args DEBUG m = if debug args then [EvLog DEBUG m] else [].
Proof.
  unfold logged, level.
  now destruct (debug args), (verbose args || dry_run args).
Qed.

Lemma logged_error_lines (l : list str) :
  flat_map (logged args ERROR) l = map (EvLog ERROR) l.
Proof.
  induction l as [|x l IH]; cbn; [reflexivity|].
  now rewrite logged_error, IH.
Qed.

Lemma logged_debug_lines (l : list str) :
  flat_map (logged args DEBUG) l
  = if debug args then map (EvLog DEBUG) l else [].
Proof.
  induction l as [|x l IH]; cbn.
  - now destruct (debug args).
  - rewrite logged_debug, IH. now destruct (debug args).
Qed.

(** X5. The build statement spawns exactly one process, the command it
    is given, and whatever that process does it never lets a
    [CalledProcessError] out: the handler catches the one of the launch
    and nothing in the handler raises another.  It leaves [fail] set
    exactly when [fail] was set or the process exited with a non-zero
    status, so it never clears it. *)
Theorem run_build_catches (c : list str) (s : State) :
  exists r s' logs,
    run_build host args c s
    = (r, s', EvSpawn c (spawn host (spawned s) c) :: logs)
    /\ (forall rc c' out, r <> Raise (CalledProcessError rc c' out))
    /\ forallb is_log logs = true
    /\ spawned s' = S (spawned s)
    /\ fail s'
       = fail s
         || match spawn host (spawned s) c with
            | Exited rc _ => negb (rc =? 0)%Z
            | NotStarted => false
            end.
Proof.
  unfold run_build, subprocess_run, try_except_CalledProcessError, decode,
    set_fail, bind, ret, raise.
  destruct (spawn host (spawned s) c) as [rc out|] eqn:Hrun.
  - destruct (rc =? 0)%Z eqn:Hrc; exec;
      destruct (fs_decode host out) eqn:Hdec; exec; cbn [app];
      eexists _, _, _; (split; [reflexivity|]);
      autorewrite with trace; cbn [negb];
      repeat split; auto; discriminate.
  - exec. cbn [app]. eexists _, _, _. split; [reflexivity|].
    autorewrite with trace. repeat split; auto; discriminate.
Qed.

(** X6. A build that exits with a non-zero status and whose output can
    be decoded is reported at every verbosity: whatever the flags, the
    handler is handed the BEGIN marker, one record per piece of the output
    between line feeds, and the END marker, all at ERROR level; [fail] is
    set and the statement ends normally. *)
Theorem failed_build_reported (c : list str) (s : State)
    (rc : Z) (out : bytes) (text : str) :
  spawn host (spawned s) c = Exited rc out ->
  rc <> 0%Z ->
  fs_decode host out = Some text ->
  run_build host args c s
  = (Ok tt, {| fail := true; spawned := S (spawned s) |},
     EvSpawn c (Exited rc out)
       :: EvLog ERROR begin_marker
       :: map (EvLog ERROR) (split_lines text) ++ [EvLog ERROR end_marker]).
Proof.
  intros Hrun Hrc Hdec. apply Z.eqb_neq in Hrc.
  unfold run_build, try_except_CalledProcessError, subprocess_run, decode,
    set_fail, bind, ret.
  rewrite Hrun, Hrc. exec. rewrite Hdec. exec.
  rewrite !logged_error, logged_error_lines.
  cbn [app]. now rewrite ?app_nil_r.
Qed.

(** X7. A build that exits with status 0 and whose output can be decoded
    leaves [fail] as it was and is silent unless [--debug] is given: with
    [--debug] the markers and the pieces of the output are logged at DEBUG
    level, without it nothing of the output reaches the handler. *)
Theorem successful_build_quiet (c : list str) (s : State)
    (out : bytes) (text : str) :
  spawn host (spawned s) c = Exited 0 out ->
  fs_decode host out = Some text ->
  run_build host args c s
  = (Ok tt, {| fail := fail s; spawned := S (spawned s) |},
     EvSpawn c (Exited 0 out)
       :: (if debug args
           then EvLog DEBUG begin_marker
                  :: map (EvLog DEBUG) (split_lines text)
                  ++ [EvLog DEBUG end_marker]
           else [])).
Proof.
  intros Hrun Hdec.
  unfold run_build, try_except_CalledProcessError, subprocess_run, decode,
    set_fail, bind, ret.
  rewrite Hrun. cbn [Z.eqb]. exec. rewrite Hdec. exec.
  rewrite !logged_debug, logged_debug_lines.
  destruct (debug args); cbn [app]; now rewrite ?app_nil_r.
Qed.

(** X8. When the output of the build cannot be decoded the statement
    raises [UnicodeDecodeError], after the BEGIN marker and before any of
    the output is logged, whether the build succeeded (then [fail] is left
    as it was) or failed (then [fail] is already set). *)
Theorem undecodable_output_raises (c : list str) (s : State)
    (rc : Z) (out : bytes) :
  spawn host (spawned s) c = Exited rc out ->
  fs_decode host out = None ->
  run_build host args c s
  = (Raise UnicodeDecodeError,
     {| fail := if (rc =? 0)%Z then fail s else true;
        spawned := S (spawned s) |},
     EvSpawn c (Exited rc out)
       :: logged args (if (rc =? 0)%Z then DEBUG else ERROR) begin_marker).
Proof.
  intros Hrun Hdec.
  unfold run_build, try_except_CalledProcessError, subprocess_run, decode,
    set_fail, bind, ret, raise.
  rewrite Hrun. destruct (rc =? 0)%Z; exec; rewrite Hdec; exec;
    cbn [app]; now rewrite ?app_nil_r.
Qed.

(** X9. Under dry-run the iteration on a record other than irods 4.1
    spawns no process and leaves the state as it was: all it does is to
    log, at INFO level, the record and then the command it would run. *)
Theorem dry_run_iteration_only_logs (name version path : str) (s : State) :
  dry_run args = true ->
  is_irods_4_1 name version = false ->
  process_record host args name version path s
  = (Ok tt, s,
     [EvLog INFO (lit "Working on " ++ name ++ lit " " ++ version
                    ++ lit " " ++ path);
      EvLog INFO (description host (plan args name version path))]).
Proof.
  intros Hdry Hirods.
  unfold process_record, bind, ret. rewrite Hirods, Hdry. exec.
  now rewrite !(dry_run_logs_info args _ Hdry).
Qed.

End Steps.

(** ** Whole runs *)

Section Runs.

Variable host : Host.
Variable args : Args.

(** A run is the pull of the default image, then, if that succeeded,
    the loop, then the status chosen from [fail]. *)
Lemma main_run (lines : list str) :
  main host args lines
  = let pull := pull_argv (conda_build_image args) in
    match spawn host 0 pull with
    | Exited rc out =>
        if (rc =? 0)%Z
        then let '(r, s', t) :=
               for_each lines (process_line host args) loop_start in
             (match r with
              | Ok _ => if fail s' then 1%Z else 0%Z
              | Raise e => exit_status (Raise e)
              end, EvSpawn pull (Exited rc out) :: t)
        else (1%Z, [EvSpawn pull (Exited rc out)])
    | NotStarted => (1%Z, [EvSpawn pull NotStarted])
    end.
Proof.
  unfold main, script, docker_pull, check_output, subprocess_run, bind, ret,
    set_fail, get_fail, raise, initial, loop_start.
  cbn [spawned fail].
  destruct (spawn host 0 (pull_argv (conda_build_image args)))
    as [rc out|]; [|reflexivity].
  destruct (rc =? 0)%Z; [|reflexivity].
  cbv beta iota zeta. cbn [spawned fail app].
  destruct (for_each lines (process_line host args)
              {| fail := false; spawned := 1 |}) as [[r s'] t].
  destruct r as [[]|e]; [|reflexivity].
  destruct (fail s'); cbn; now rewrite app_nil_r.
Qed.

Lemma attempts_nil_no_failure (t : list Event) :
  attempts t = [] -> any_build_failed t = false.
Proof.
  induction t as [|e t IH]; [reflexivity|].
  change (e :: t) with ([e] ++ t).
  rewrite attempts_app, any_build_failed_app.
  intro H. apply app_eq_nil in H as [He Ht]. rewrite (IH Ht), orb_false_r.
  destruct e as [argv r|lvl m]; [|reflexivity].
  cbn in He |- *. destruct (is_build argv); [discriminate He|].
  now destruct r.
Qed.

Lemma attempts_nil_fatal (t : list Event) :
  attempts t = [] -> existsb (fatal host) t = existsb pull_failed t.
Proof.
  induction t as [|e t IH]; [reflexivity|].
  change (e :: t) with ([e] ++ t).
  rewrite attempts_app, !existsb_app.
  intro H. apply app_eq_nil in H as [He Ht]. rewrite (IH Ht). f_equal.
  destruct e as [argv r|lvl m]; [|reflexivity].
  cbn in He |- *. unfold fatal, build_lost, pull_failed.
  destruct (is_build argv); [discriminate He|].
  cbn. now rewrite !orb_false_r.
Qed.

Lemma plans_length (lines : list str) :
  Forall well_formed lines -> length (plans args lines) = length lines.
Proof.
  induction 1 as [|line lines Hwf _ IH]; [reflexivity|].
  destruct (well_formed_parsed line Hwf) as (name & version & path & Hp).
  rewrite (plans_cons_parsed args _ _ _ _ lines Hp). cbn. now rewrite IH.
Qed.

(** What a run that meets no fatal event looks like. *)
Lemma main_completes (lines : list str) :
  Forall well_formed lines ->
  existsb (fatal host) (snd (main host args lines)) = false ->
  exists s' t out,
    for_each lines (process_line host args) loop_start = (Ok tt, s', t)
    /\ main host args lines
       = ((if fail s' then 1 else 0)%Z,
          EvSpawn (pull_argv (conda_build_image args)) (Exited 0 out) :: t)
    /\ existsb (fatal host) t = false.
Proof.
  intros Hwf. rewrite main_run. cbv zeta.
  destruct (spawn host 0 (pull_argv (conda_build_image args)))
    as [rc out|] eqn:Hpull.
  - destruct (rc =? 0)%Z eqn:Hrc.
    + apply Z.eqb_eq in Hrc. subst rc.
      destruct (for_each lines (process_line host args) loop_start)
        as [[r s'] t] eqn:Hloop.
      cbn [snd]. change (EvSpawn ?a ?b :: t) with ([EvSpawn a b] ++ t).
      rewrite existsb_app, fatal_pull. cbn [Z.eqb negb orb].
      intro Hfatal.
      destruct (loop_well_formed host args lines Hwf _ _ _ _ Hloop)
        as [Hok _].
      pose proof (proj2 Hok Hfatal) as Hr. subst r. now exists s', t, out.
    + cbn [snd]. rewrite fatal_pull, Hrc. discriminate.
  - cbn [snd]. rewrite fatal_pull_not_started. discriminate.
Qed.

End Runs.

Ltac all_well_formed :=
  repeat first [ apply Forall_nil | apply Forall_cons; [reflexivity|] ].

(** ** Failure of one build (lines 175-191) *)

Section Isolation.

Variable host : Host.
Variable args : Args.

(** A build that exits with a non-zero status and whose output can be
    decoded does not stop the loop: [fail] is set, the output is logged
    at error level, and the statement ends normally. *)
Lemma failed_build_isolated (c : list str) (s : State)
    (rc : Z) (out : bytes) (text : str) :
  spawn host (spawned s) c = Exited rc out ->
  rc <> 0%Z ->
  fs_decode host out = Some text ->
  run_build host args c s
  = (Ok tt, {| fail := true; spawned := S (spawned s) |},
     [EvSpawn c (Exited rc out)]
       ++ logged args ERROR begin_marker
       ++ flat_map (logged args ERROR) (split_lines text)
       ++ logged args ERROR end_marker).
Proof.
  intros Hrun Hrc Hdec. apply Z.eqb_neq in Hrc.
  unfold run_build, try_except_CalledProcessError, subprocess_run, decode,
    set_fail, bind, ret.
  rewrite Hrun, Hrc. cbv beta iota zeta. rewrite log_run.
  cbv beta iota zeta. rewrite Hdec. cbv beta iota zeta.
  rewrite for_each_log. cbv beta iota zeta. rewrite log_run.
  cbn [spawned fail app]. now rewrite ?app_nil_r.
Qed.

End Isolation.

(** C1, on the code.  Two well-formed lines; the pull succeeds; the
    build of the first line exits with status 1 and prints a byte that is
    not UTF-8.  The run stops while reporting that failure: the second
    line is never launched, and the output of the failed build never
    reaches the log. *)
Theorem garbled_failure_aborts :
  main (nth_fails_garbled 1) defaults [zlib_line; samtools_line]
  = (1%Z,
     [EvSpawn (pull_argv (conda_build_image defaults)) (Exited 0 ok_output);
      EvSpawn (plan defaults (lit "zlib") (lit "1.2.11") (lit "/recipes/zlib"))
        (Exited 1 [xff]%byte);
      EvLog ERROR begin_marker])
  /\ attempts (snd (main (nth_fails_garbled 1) defaults
                      [zlib_line; samtools_line]))
     = [plan defaults (lit "zlib") (lit "1.2.11") (lit "/recipes/zlib")]
  /\ attempts (snd (main (nth_fails 1) defaults [zlib_line; samtools_line]))
     = [plan defaults (lit "zlib") (lit "1.2.11") (lit "/recipes/zlib");
        plan defaults (lit "samtools") (lit "1.9") (lit "/recipes/samtools")].
Proof. repeat split; vm_compute; reflexivity. Qed.

(** ** The exit status (lines 193-194) *)

(** C2, as the code has it.  On well-formed input, in a run where no
    pull fails, every process starts and every build's output can be
    decoded, the exit status is 1 if a build exited with a non-zero status
    and 0 otherwise; under dry-run it is 0. *)
Theorem exit_status_reflects_failures
    (host : Host) (args : Args) (lines : list str) :
  Forall well_formed lines ->
  existsb (fatal host) (snd (main host args lines)) = false ->
  fst (main host args lines)
  = (if any_build_failed (snd (main host args lines)) then 1 else 0)%Z
  /\ (dry_run args = true -> fst (main host args lines) = 0%Z).
Proof.
  intros Hwf Hfatal.
  destruct (main_completes host args lines Hwf Hfatal)
    as (s' & t & out & Hloop & Hmain & _).
  rewrite Hmain. cbn [fst snd].
  destruct (loop_any host args lines _ _ _ _ Hloop)
    as (_ & Hdry & _ & Hfail).
  change (EvSpawn ?a ?b :: t) with ([EvSpawn a b] ++ t).
  rewrite any_build_failed_app, any_build_failed_pull. cbn [orb].
  cbn [fail loop_start orb] in Hfail. rewrite Hfail. split; [reflexivity|].
  intro H. now rewrite (attempts_nil_no_failure t (Hdry H)).
Qed.

Lemma exit_status_reflects_failures_witness :
  fst (main (nth_fails 2) defaults [zlib_line; samtools_line; irods_line]) = 1%Z
  /\ fst (main all_succeed defaults [zlib_line; samtools_line; irods_line])
     = 0%Z.
Proof.
  split.
  - refine (proj1 (exit_status_reflects_failures (nth_fails 2) defaults
                     [zlib_line; samtools_line; irods_line] _ _));
      [all_well_formed | vm_compute; reflexivity].
  - refine (proj1 (exit_status_reflects_failures all_succeed defaults
                     [zlib_line; samtools_line; irods_line] _ _));
      [all_well_formed | vm_compute; reflexivity].
Defined.

(** C2, as claimed, fails: the status is not a function of whether a
    build failed.  On the same well-formed input no build fails in either
    run, yet the run whose first pull fails exits with status 1. *)
Lemma status_not_function_of_failures :
  Forall well_formed [zlib_line]
  /\ any_build_failed (snd (main all_succeed defaults [zlib_line])) = false
  /\ fst (main all_succeed defaults [zlib_line]) = 0%Z
  /\ any_build_failed (snd (main (nth_fails 0) defaults [zlib_line])) = false
  /\ fst (main (nth_fails 0) defaults [zlib_line]) = 1%Z.
Proof. split; [all_well_formed|]. repeat split; vm_compute; reflexivity. Qed.

(** ** One attempt per line, in order (lines 129-181) *)

Lemma plans_planned (args : Args) (lines : list str) :
  Forall well_formed lines -> Forall2 (planned args) lines (plans args lines).
Proof.
  induction 1 as [|line lines Hwf _ IH]; [constructor|].
  destruct (well_formed_parsed line Hwf) as (name & version & path & Hp).
  rewrite (plans_cons_parsed args _ _ _ _ lines Hp).
  constructor; [|exact IH]. now exists name, version, path.
Qed.

(** C4, as the code has it.  On well-formed input, in a run where no
    pull fails, every process starts and every build's output can be
    decoded: without dry-run the builds launched are, line by line and in
    the order of the lines, the plans of the records, one per line; under
    dry-run nothing is launched and the descriptions logged are those of
    the plans, one per line in the order of the lines. *)
Theorem one_attempt_per_line (host : Host) (args : Args) (lines : list str) :
  Forall well_formed lines ->
  existsb (fatal host) (snd (main host args lines)) = false ->
  (dry_run args = false ->
   Forall2 (planned args) lines (attempts (snd (main host args lines)))
   /\ length (attempts (snd (main host args lines))) = length lines)
  /\ (dry_run args = true ->
      attempts (snd (main host args lines)) = []
      /\ exists cs,
           Forall2 (planned args) lines cs
           /\ descriptions (snd (main host args lines))
              = map (description host) cs
           /\ length (descriptions (snd (main host args lines)))
              = length lines).
Proof.
  intros Hwf Hfatal.
  destruct (main_completes host args lines Hwf Hfatal)
    as (s' & t & out & Hloop & Hmain & _).
  rewrite Hmain. cbn [snd].
  destruct (loop_well_formed host args lines Hwf _ _ _ _ Hloop)
    as [_ Hall].
  destruct (Hall eq_refl) as [Hatt Hdesc].
  change (EvSpawn ?a ?b :: t) with ([EvSpawn a b] ++ t).
  rewrite attempts_app, descriptions_app, attempts_pull, descriptions_spawn.
  cbn [app]. rewrite Hatt, Hdesc.
  split; intros ->.
  - split; [now apply plans_planned | now apply plans_length].
  - split; [reflexivity|]. exists (plans args lines).
    split; [now apply plans_planned|]. split; [reflexivity|].
    rewrite length_map. now apply plans_length.
Qed.

Lemma one_attempt_per_line_witness :
  (Forall2 (planned defaults) [zlib_line; irods_line; samtools_line]
     (attempts (snd (main (nth_fails 1) defaults
                       [zlib_line; irods_line; samtools_line])))
   /\ length (attempts (snd (main (nth_fails 1) defaults
                               [zlib_line; irods_line; samtools_line])))
      = 3%nat)
  /\ length (descriptions (snd (main all_succeed defaults_dry_run
                                  [zlib_line; irods_line; samtools_line])))
     = 3%nat.
Proof.
  split.
  - refine (proj1 (one_attempt_per_line (nth_fails 1) defaults
                     [zlib_line; irods_line; samtools_line] _ _) _);
      [all_well_formed | vm_compute; reflexivity | reflexivity].
  - destruct (proj2 (one_attempt_per_line all_succeed defaults_dry_run
                       [zlib_line; irods_line; samtools_line]
                       ltac:(all_well_formed) ltac:(vm_compute; reflexivity))
                eq_refl) as [_ [cs [_ [_ H]]]].
    exact H.
Defined.

(** C4, as claimed, fails: three well-formed lines, the pull of the irods
    image for the second exits with status 1, and one build only is
    launched. *)
Lemma fewer_attempts_than_lines :
  Forall well_formed [zlib_line; irods_line; samtools_line]
  /\ length (attempts (snd (main (nth_fails 2) defaults
                              [zlib_line; irods_line; samtools_line])))
     = 1%nat
  /\ length [zlib_line; irods_line; samtools_line] = 3%nat.
Proof. split; [all_well_formed|]. split; vm_compute; reflexivity. Qed.

(** ** Dry-run (lines 170-171) *)

(** C7, as the code has it.  Under dry-run no build is ever launched,
    whatever the input and the host.  On well-formed input, if no image
    pull fails, the run describes the plan of every line at INFO level, in
    the order of the lines, counts no failure and exits with status 0. *)
Theorem dry_run_launches_nothing
    (host : Host) (args : Args) (lines : list str) :
  dry_run args = true ->
  attempts (snd (main host args lines)) = []
  /\ (Forall well_formed lines ->
      existsb pull_failed (snd (main host args lines)) = false ->
      fst (main host args lines) = 0%Z
      /\ any_build_failed (snd (main host args lines)) = false
      /\ descriptions (snd (main host args lines))
         = map (description host) (plans args lines)
      /\ length (descriptions (snd (main host args lines))) = length lines).
Proof.
  intro Hdry.
  assert (Hnone : attempts (snd (main host args lines)) = []).
  { rewrite main_run. cbv zeta.
    destruct (spawn host 0 (pull_argv (conda_build_image args)))
      as [rc out|]; [|reflexivity].
    destruct (rc =? 0)%Z; [|reflexivity].
    destruct (for_each lines (process_line host args) loop_start)
      as [[r s'] t] eqn:Hloop.
    destruct (loop_any host args lines _ _ _ _ Hloop) as (_ & Hno & _).
    cbn [snd]. change (EvSpawn ?a ?b :: t) with ([EvSpawn a b] ++ t).
    now rewrite attempts_app, attempts_pull, (Hno Hdry). }
  split; [exact Hnone|]. intros Hwf Hpulls.
  rewrite <- (attempts_nil_fatal host _ Hnone) in Hpulls.
  destruct (main_completes host args lines Hwf Hpulls)
    as (s' & t & out & Hloop & Hmain & _).
  destruct (loop_well_formed host args lines Hwf _ _ _ _ Hloop)
    as [_ Hall].
  destruct (Hall eq_refl) as [_ Hdesc]. rewrite Hdry in Hdesc.
  destruct (loop_any host args lines _ _ _ _ Hloop)
    as (_ & Hno & _ & Hfail).
  rewrite (attempts_nil_no_failure t (Hno Hdry)) in Hfail.
  cbn [fail loop_start orb] in Hfail.
  split; [now rewrite Hmain, Hfail|].
  split; [exact (attempts_nil_no_failure _ Hnone)|].
  rewrite Hmain. cbn [snd].
  change (EvSpawn ?a ?b :: t) with ([EvSpawn a b] ++ t).
  rewrite descriptions_app, descriptions_spawn. cbn [app]. rewrite Hdesc.
  split; [reflexivity|]. rewrite length_map. now apply plans_length.
Qed.

Lemma dry_run_launches_nothing_witness :
  attempts (snd (main all_succeed defaults_dry_run
                   [zlib_line; irods_line; samtools_line])) = []
  /\ fst (main all_succeed defaults_dry_run
            [zlib_line; irods_line; samtools_line]) = 0%Z.
Proof.
  pose proof (dry_run_launches_nothing all_succeed defaults_dry_run
                [zlib_line; irods_line; samtools_line] eq_refl)
    as [Hnone Hrest].
  split; [exact Hnone|].
  apply Hrest; [all_well_formed | vm_compute; reflexivity].
Defined.

(** C7, as claimed, fails: under dry-run, on a well-formed line, the
    run whose pull of the default image exits with status 1 exits with
    status 1, and the plan of the line is never described. *)
Lemma dry_run_exit_status_one :
  dry_run defaults_dry_run = true
  /\ Forall well_formed [zlib_line]
  /\ main (nth_fails 0) defaults_dry_run [zlib_line]
     = (1%Z, [EvSpawn (pull_argv (conda_build_image defaults_dry_run))
                (Exited 1 ok_output)]).
Proof.
  split; [reflexivity|]. split; [all_well_formed|]. vm_compute. reflexivity.
Qed.

(** ** Malformed lines (line 131) *)

Section Malformed.

Variable host : Host.
Variable args : Args.

(** A loop over lines followed by a malformed line stops there at the
    latest, having done what the loop over the lines before it does. *)
Lemma loop_stops_at_malformed (pre post : list str) (bad : str) :
  ~ well_formed bad ->
  forall s r s' t,
    for_each pre (process_line host args) s = (r, s', t) ->
    for_each (pre ++ bad :: post) (process_line host args) s
    = (match r with Ok _ => Raise ValueError | Raise e => Raise e end, s', t).
Proof.
  intro Hbad. induction pre as [|line pre IH]; intros s r s' t Hrun.
  - cbn in Hrun. injection Hrun as <- <- <-.
    cbn [app for_each]. unfold bind.
    now rewrite (process_line_malformed host args bad s Hbad).
  - cbn [app for_each] in Hrun |- *. unfold bind in Hrun |- *.
    destruct (process_line host args line s) as [[r1 s1] t1].
    destruct r1 as [[]|e].
    + destruct (for_each pre (process_line host args) s1)
        as [[r2 s2] t2] eqn:Hrest.
      injection Hrun as <- <- <-.
      now rewrite (IH _ _ _ _ Hrest).
    + now injection Hrun as <- <- <-.
Qed.

End Malformed.

(** C8. A run on input that holds a line which does not split into
    exactly three fields exits with status 1, and what it does is what
    the run on the lines before that line does: the records before it
    keep their effects and no line after it is looked at. *)
Theorem malformed_line_aborts
    (host : Host) (args : Args) (pre post : list str) (bad : str) :
  length (split bad) <> 3%nat ->
  main host args (pre ++ bad :: post) = (1%Z, snd (main host args pre))
  /\ fst (main host args (pre ++ bad :: post)) <> 0%Z.
Proof.
  intro Hbad.
  assert (H : main host args (pre ++ bad :: post)
              = (1%Z, snd (main host args pre))).
  { rewrite !main_run. cbv zeta.
    destruct (spawn host 0 (pull_argv (conda_build_image args)))
      as [rc out|]; [|reflexivity].
    destruct (rc =? 0)%Z; [|reflexivity].
    destruct (for_each pre (process_line host args) loop_start)
      as [[r s'] t] eqn:Hloop.
    rewrite (loop_stops_at_malformed host args pre post bad Hbad _ _ _ _ Hloop).
    destruct (loop_any host args pre _ _ _ _ Hloop) as (Hexit & _).
    destruct r as [[]|e]; [reflexivity|].
    cbn [snd]. f_equal. destruct e; try reflexivity.
    now contradiction (Hexit code). }
  split; [exact H|]. now rewrite H.
Qed.

Lemma malformed_line_aborts_witness :
  main all_succeed defaults [zlib_line; short_line; irods_line]
  = (1%Z, snd (main all_succeed defaults [zlib_line]))
  /\ fst (main all_succeed defaults [zlib_line; short_line; irods_line])
     <> 0%Z.
Proof.
  apply (malformed_line_aborts all_succeed defaults
           [zlib_line] [irods_line] short_line).
  vm_compute. discriminate.
Defined.

(** ** Pulls under dry-run (lines 125, 135-138) *)

(** C9. Under dry-run: the first thing any run does is to pull the
    default build image; the iteration on a record for which the irods
    image is chosen pulls that image, once, and launches nothing; a run
    launches no build; and on well-formed input, if no pull fails, the
    images pulled are the default image and then the irods image once for
    each such record. *)
Theorem dry_run_still_pulls (host : Host) (args : Args) (lines : list str) :
  dry_run args = true ->
  (exists t,
     snd (main host args lines)
     = EvSpawn (pull_argv (conda_build_image args))
         (spawn host 0 (pull_argv (conda_build_image args))) :: t)
  /\ (forall name version path s,
        is_irods_4_1 name version = true ->
        pulls (snd (process_record host args name version path s))
        = [irods_build_image args]
        /\ attempts (snd (process_record host args name version path s)) = [])
  /\ attempts (snd (main host args lines)) = []
  /\ (Forall well_formed lines ->
      existsb pull_failed (snd (main host args lines)) = false ->
      pulls (snd (main host args lines))
      = conda_build_image args
          :: map (fun _ => irods_build_image args)
               (filter needs_irods_image lines)).
Proof.
  intro Hdry.
  assert (Hnone : attempts (snd (main host args lines)) = []).
  { rewrite main_run. cbv zeta.
    destruct (spawn host 0 (pull_argv (conda_build_image args)))
      as [rc out|]; [|reflexivity].
    destruct (rc =? 0)%Z; [|reflexivity].
    destruct (for_each lines (process_line host args) loop_start)
      as [[r s'] t] eqn:Hloop.
    destruct (loop_any host args lines _ _ _ _ Hloop) as (_ & Hno & _).
    cbn [snd]. change (EvSpawn ?a ?b :: t) with ([EvSpawn a b] ++ t).
    now rewrite attempts_app, attempts_pull, (Hno Hdry). }
  split; [|split; [|split; [exact Hnone|]]].
  - rewrite main_run. cbv zeta.
    destruct (spawn host 0 (pull_argv (conda_build_image args)))
      as [rc out|]; [|now exists []].
    destruct (rc =? 0)%Z; [|now exists []].
    destruct (for_each lines (process_line host args) loop_start)
      as [[r s'] t].
    now exists t.
  - intros name version path s Hirods.
    rewrite process_record_pulls, Hirods. split; [reflexivity|].
    pose proof (process_record_spec host args name version path s) as Hstep.
    unfold step_spec in Hstep.
    destruct (process_record host args name version path s) as [[r s'] t].
    destruct Hstep as (_ & _ & [H|[H _]] & _); [exact H|congruence].
  - intros Hwf Hpulls.
    rewrite <- (attempts_nil_fatal host _ Hnone) in Hpulls.
    destruct (main_completes host args lines Hwf Hpulls)
      as (s' & t & out & Hloop & Hmain & _).
    rewrite Hmain. cbn [snd].
    change (EvSpawn ?a ?b :: t) with ([EvSpawn a b] ++ t).
    rewrite pulls_app, pulls_pull. cbn [app]. f_equal.
    exact (loop_pulls host args lines Hwf _ _ _ Hloop).
Qed.

Lemma dry_run_still_pulls_witness :
  pulls (snd (main all_succeed defaults_dry_run
                [zlib_line; irods_line; samtools_line]))
  = [conda_build_image defaults_dry_run; irods_build_image defaults_dry_run]
  /\ attempts (snd (main all_succeed defaults_dry_run
                      [zlib_line; irods_line; samtools_line])) = [].
Proof.
  pose proof (dry_run_still_pulls all_succeed defaults_dry_run
                [zlib_line; irods_line; samtools_line] eq_refl)
    as (_ & _ & Hnone & Hpulls).
  split; [|exact Hnone].
  apply Hpulls; [all_well_formed | vm_compute; reflexivity].
Defined.

(** ** Parsing a line (lines 130-131) *)

Lemma split_fields_end (acc : str) : split_fields acc [] = flush acc.
Proof. now destruct acc. Qed.

Lemma split_fields_blank (ws : str) :
  blank ws = true -> forall acc, split_fields acc ws = flush acc.
Proof.
  induction ws as [|c ws IH]; intros Hb acc; [apply split_fields_end|].
  cbn in Hb. apply andb_true_iff in Hb as [Hc Hws].
  cbn. rewrite Hc. destruct acc; now rewrite (IH Hws).
Qed.

Lemma split_fields_blank_app (ws s : str) :
  blank ws = true -> ws <> [] ->
  forall acc, split_fields acc (ws ++ s) = flush acc ++ split_fields [] s.
Proof.
  induction ws as [|c ws IH]; intros Hb Hne acc; [now contradiction Hne|].
  cbn in Hb. apply andb_true_iff in Hb as [Hc Hws].
  cbn [app split_fields]. rewrite Hc.
  destruct ws as [|c' ws].
  - now destruct acc.
  - assert (Hrec : split_fields [] ((c' :: ws) ++ s) = split_fields [] s)
      by (now rewrite (IH Hws)).
    rewrite Hrec. now destruct acc.
Qed.

Lemma split_fields_leading_blank (ws s : str) :
  blank ws = true -> split_fields [] (ws ++ s) = split_fields [] s.
Proof.
  intro Hb. destruct ws as [|c ws]; [reflexivity|].
  now rewrite split_fields_blank_app.
Qed.

Lemma split_fields_solid (w s : str) :
  solid w = true ->
  forall acc, split_fields acc (w ++ s) = split_fields (rev w ++ acc) s.
Proof.
  induction w as [|c w IH]; intros Hs acc; [reflexivity|].
  cbn in Hs. apply andb_true_iff in Hs as [Hc Hw].
  apply negb_true_iff in Hc.
  cbn [app split_fields]. rewrite Hc, (IH Hw).
  cbn [rev]. now rewrite <- app_assoc.
Qed.

Lemma split_fields_trailing_blank (s ws : str) :
  blank ws = true ->
  forall acc, split_fields acc (s ++ ws) = split_fields acc s.
Proof.
  intro Hb. induction s as [|c s IH]; intro acc.
  - cbn [app]. now rewrite split_fields_blank, split_fields_end.
  - cbn [app split_fields]. destruct (isspace c).
    + destruct acc; now rewrite IH.
    + apply IH.
Qed.

Lemma flush_field (w : str) : w <> [] -> flush (rev w ++ []) = [w].
Proof.
  intro Hne. rewrite app_nil_r. unfold flush.
  destruct (rev w) eqn:E.
  - apply (f_equal (@rev char)) in E. rewrite rev_involutive in E.
    now contradiction Hne.
  - now rewrite <- E, rev_involutive.
Qed.

Lemma blank_rev (ws : str) : blank ws = true -> blank (rev ws) = true.
Proof.
  unfold blank. rewrite !forallb_forall. intros H c Hc.
  apply H. now apply in_rev.
Qed.

(** What [rstrip] takes away is blank. *)
Lemma rstrip_decompose (s : str) :
  exists ws, blank ws = true /\ s = rstrip s ++ ws.
Proof.
  unfold rstrip.
  set (drop := fix drop (r : str) : str :=
                 match r with
                 | [] => []
                 | c :: r' => if isspace c then drop r' else r
                 end).
  assert (H : forall r, exists ws, blank ws = true /\ r = ws ++ drop r).
  { induction r as [|c r [ws [Hb Hr]]]; [now exists []|].
    cbn. destruct (isspace c) eqn:Hc.
    - exists (c :: ws). split.
      + unfold blank in Hb |- *. cbn. now rewrite Hc, Hb.
      + cbn [app]. now rewrite <- Hr.
    - now exists []. }
  destruct (H (rev s)) as [ws [Hb Hr]].
  exists (rev ws). split; [now apply blank_rev|].
  rewrite <- rev_app_distr, <- Hr. symmetry. apply rev_involutive.
Qed.

(** X1. Splitting a line into fields gives the same fields whether or
    not the line is stripped of its trailing blanks first: dropping the
    value of [line.rstrip()] on line 130 changes nothing of what line 131
    parses, and so nothing of the iteration. *)
Theorem split_after_rstrip (host : Host) (args : Args) (line : str) :
  split (rstrip line) = split line
  /\ forall s, process_line host args (rstrip line) s
               = process_line host args line s.
Proof.
  assert (E : split (rstrip line) = split line).
  { destruct (rstrip_decompose line) as [ws [Hb Hs]].
    unfold split. rewrite Hs at 2.
    now rewrite split_fields_trailing_blank. }
  split; [exact E|]. intro s. unfold process_line. now rewrite E.
Qed.

(** X2. A line made of three fields that are not empty and hold no
    blank, with blanks (at least one) between them and any blanks before
    and after, is parsed into exactly these fields, and the iteration on
    the line is the iteration on that record. *)
Theorem three_fields_parsed
    (host : Host) (args : Args) (ws0 name ws1 version ws2 path ws3 : str) :
  blank ws0 = true -> blank ws1 = true -> blank ws2 = true ->
  blank ws3 = true -> ws1 <> [] -> ws2 <> [] ->
  solid name = true -> solid version = true -> solid path = true ->
  name <> [] -> version <> [] -> path <> [] ->
  split (ws0 ++ name ++ ws1 ++ version ++ ws2 ++ path ++ ws3)
  = [name; version; path]
  /\ forall s,
       process_line host args
         (ws0 ++ name ++ ws1 ++ version ++ ws2 ++ path ++ ws3) s
       = process_record host args name version path s.
Proof.
  intros B0 B1 B2 B3 N1 N2 Sn Sv Sp Nn Nv Np.
  assert (E : split (ws0 ++ name ++ ws1 ++ version ++ ws2 ++ path ++ ws3)
              = [name; version; path]).
  { unfold split.
    rewrite (split_fields_leading_blank ws0 _ B0).
    rewrite (split_fields_solid name _ Sn).
    rewrite (split_fields_blank_app ws1 _ B1 N1), (flush_field name Nn).
    cbn [app].
    rewrite (split_fields_solid version _ Sv).
    rewrite (split_fields_blank_app ws2 _ B2 N2), (flush_field version Nv).
    cbn [app].
    rewrite (split_fields_solid path _ Sp).
    now rewrite (split_fields_blank ws3 B3), (flush_field path Np). }
  split; [exact E|]. intro s. now apply process_line_parsed.
Qed.

Lemma three_fields_parsed_witness :
  split (lit "  irods" ++ [9%N] ++ lit "4.1.10   /recipes/irods" ++ [newline])
  = [lit "irods"; lit "4.1.10"; lit "/recipes/irods"].
Proof.
  apply (three_fields_parsed all_succeed defaults
           (lit "  ") (lit "irods") [9%N] (lit "4.1.10") (lit "   ")
           (lit "/recipes/irods") [newline]);
    try reflexivity; discriminate.
Defined.

Lemma solid_rev (w : str) : solid w = true -> solid (rev w) = true.
Proof.
  unfold solid. rewrite !forallb_forall. intros H c Hc.
  apply H. now apply in_rev.
Qed.

Lemma split_fields_solid_fields (s : str) :
  forall acc, solid acc = true ->
  Forall (fun field => field <> [] /\ solid field = true)
    (split_fields acc s).
Proof.
  induction s as [|c s IH]; intros acc Hacc.
  - cbn. destruct acc as [|a acc]; constructor; [|constructor].
    split; [|now apply solid_rev].
    intro E. apply (f_equal (@length char)) in E.
    rewrite length_rev in E. discriminate E.
  - cbn. destruct (isspace c) eqn:Hc.
    + destruct acc as [|a acc]; [now apply IH|].
      constructor; [|now apply IH].
      split; [|now apply solid_rev].
      intro E. apply (f_equal (@length char)) in E.
      rewrite length_rev in E. discriminate E.
    + apply IH. cbn. now rewrite Hc.
Qed.

(** X3. The fields a line is parsed into are never empty and never hold
    a blank: the name, the version and the path of a record are words. *)
Theorem fields_are_words (line : str) :
  Forall (fun field => field <> [] /\ solid field = true) (split line).
Proof.
  unfold split. apply split_fields_solid_fields.
  reflexivity.
Qed.

(** X4. A line that holds nothing but blanks (the empty line and a line
    that is just its end of line included) has no field: the iteration
    on it raises [ValueError] at once, without logging, spawning or
    touching [fail]. *)
Theorem blank_line_rejected
    (host : Host) (args : Args) (line : str) (s : State) :
  blank line = true ->
  split line = []
  /\ process_line host args line s = (Raise ValueError, s, []).
Proof.
  intro Hb.
  assert (E : split line = [])
    by (unfold split; now rewrite split_fields_blank).
  split; [exact E|].
  apply process_line_malformed. unfold well_formed. now rewrite E.
Qed.

Lemma blank_line_rejected_witness :
  split [newline] = []
  /\ process_line all_succeed defaults [newline] (loop_start)
     = (Raise ValueError, loop_start, []).
Proof.
  apply (blank_line_rejected all_succeed defaults [newline] loop_start).
  reflexivity.
Defined.

(** ** Witnesses for the build statement and the dry-run iteration *)

Lemma failed_build_reported_witness :
  run_build (nth_fails 1) defaults
    (plan defaults (lit "zlib") (lit "1.2.11") (lit "/recipes/zlib"))
    loop_start
  = (Ok tt, {| fail := true; spawned := 2 |},
     EvSpawn (plan defaults (lit "zlib") (lit "1.2.11") (lit "/recipes/zlib"))
       (Exited 1 ok_output)
       :: EvLog ERROR begin_marker
       :: map (EvLog ERROR) (split_lines (lit "ok" ++ [newline]))
       ++ [EvLog ERROR end_marker]).
Proof.
  apply (failed_build_reported (nth_fails 1) defaults _ loop_start
           1%Z ok_output (lit "ok" ++ [newline]));
    [reflexivity | discriminate | reflexivity].
Defined.

Lemma successful_build_quiet_witness :
  run_build all_succeed defaults
    (plan defaults (lit "zlib") (lit "1.2.11") (lit "/recipes/zlib"))
    loop_start
  = (Ok tt, {| fail := false; spawned := 2 |},
     [EvSpawn (plan defaults (lit "zlib") (lit "1.2.11") (lit "/recipes/zlib"))
        (Exited 0 ok_output)]).
Proof.
  apply (successful_build_quiet all_succeed defaults _ loop_start
           ok_output (lit "ok" ++ [newline])); reflexivity.
Defined.

Lemma undecodable_output_raises_witness :
  run_build (nth_fails_garbled 1) defaults
    (plan defaults (lit "zlib") (lit "1.2.11") (lit "/recipes/zlib"))
    loop_start
  = (Raise UnicodeDecodeError, {| fail := true; spawned := 2 |},
     [EvSpawn (plan defaults (lit "zlib") (lit "1.2.11") (lit "/recipes/zlib"))
        (Exited 1 [xff]%byte);
      EvLog ERROR begin_marker]).
Proof.
  apply (undecodable_output_raises (nth_fails_garbled 1) defaults _
           loop_start 1%Z [xff]%byte); reflexivity.
Defined.

Lemma dry_run_iteration_only_logs_witness :
  process_record all_succeed defaults_dry_run
    (lit "zlib") (lit "1.2.11") (lit "/recipes/zlib") loop_start
  = (Ok tt, loop_start,
     [EvLog INFO (lit "Working on zlib 1.2.11 /recipes/zlib");
      EvLog INFO (description all_succeed
                    (plan defaults_dry_run (lit "zlib") (lit "1.2.11")
                       (lit "/recipes/zlib")))]).
Proof.
  apply (dry_run_iteration_only_logs all_succeed defaults_dry_run
           (lit "zlib") (lit "1.2.11") (lit "/recipes/zlib") loop_start);
    reflexivity.
Defined.

(** ** The pieces of an output (lines 183 and 189) *)

Lemma join_split_pieces (s : str) :
  forall acc,
    join [newline] (split_pieces newline acc s) = rev acc ++ s
    /\ split_pieces newline acc s <> [].
Proof.
  induction s as [|c s IH]; intro acc.
  - cbn. split; [now rewrite app_nil_r | discriminate].
  - cbn [split_pieces]. destruct (c =? newline)%N eqn:Hc.
    + apply N.eqb_eq in Hc. subst c.
      destruct (IH []) as [Hj Hne]. split; [|discriminate].
      cbn [join]. destruct (split_pieces newline [] s) as [|x l] eqn:E;
        [now contradiction Hne|].
      now rewrite Hj.
    + destruct (IH (c :: acc)) as [Hj Hne]. split; [|exact Hne].
      rewrite Hj. cbn [rev]. now rewrite <- app_assoc.
Qed.

Lemma split_pieces_length (s : str) :
  forall acc,
    length (split_pieces newline acc s)
    = S (count_occ N.eq_dec s newline).
Proof.
  induction s as [|c s IH]; intro acc; [reflexivity|].
  cbn [split_pieces count_occ].
  destruct (N.eq_dec c newline) as [E|E].
  - apply N.eqb_eq in E. rewrite E. cbn [length]. now rewrite IH.
  - apply N.eqb_neq in E. rewrite E. apply IH.
Qed.

(** X10. Cutting an output at its line feeds loses nothing: the pieces,
    joined by line feeds, are the output, and there is one piece more than
    there are line feeds, so that an empty output gives one empty piece and
    an output that ends in a line feed a last, empty piece. *)
Theorem split_lines_round_trip (text : str) :
  join [newline] (split_lines text) = text
  /\ length (split_lines text) = S (count_occ N.eq_dec text newline)
  /\ split_lines [] = [[]]
  /\ last (split_lines (text ++ [newline])) [newline] = [].
Proof.
  unfold split_lines. split; [|split; [|split]].
  - exact (proj1 (join_split_pieces text [])).
  - apply split_pieces_length.
  - reflexivity.
  - assert (H : forall acc,
               last (split_pieces newline acc (text ++ [newline])) [newline]
               = []); [|apply H].
    induction text as [|c text IH]; intro acc; [reflexivity|].
    cbn [app split_pieces]. destruct (c =? newline)%N.
    + specialize (IH []).
      destruct (split_pieces newline [] (text ++ [newline])) eqn:E;
        [now destruct (proj2 (join_split_pieces (text ++ [newline]) []))|].
      exact IH.
    + apply IH.
Qed.

(** ** More on the loop *)

Section Loops.

Variable host : Host.
Variable args : Args.

Lemma pull_failed_fatal (t : list Event) :
  existsb pull_failed t = true -> existsb (fatal host) t = true.
Proof.
  rewrite !existsb_exists. intros [e [Hin He]]. exists e.
  split; [exact Hin|]. unfold fatal. now rewrite He.
Qed.

(** A loop that ends normally has met well-formed lines only. *)
Lemma loop_ok_well_formed (lines : list str) :
  forall s s' t,
    for_each lines (process_line host args) s = (Ok tt, s', t) ->
    Forall well_formed lines.
Proof.
  induction lines as [|line lines IH]; intros s s' t Hrun; [constructor|].
  cbn [for_each] in Hrun. unfold bind in Hrun.
  destruct (well_formed_dec line) as [Hwf|Hwf].
  - constructor; [exact Hwf|].
    destruct (process_line host args line s) as [[r1 s1] t1].
    destruct r1 as [[]|e]; [|discriminate Hrun].
    destruct (for_each lines (process_line host args) s1)
      as [[r2 s2] t2] eqn:Hrest.
    injection Hrun as -> <- <-. exact (IH _ _ _ Hrest).
  - rewrite (process_line_malformed host args line s Hwf) in Hrun.
    discriminate Hrun.
Qed.

(** The records of a loop are at the configured level or above, and one
    of them is at ERROR level exactly when a build exited with a non-zero
    status. *)
Lemma loop_logs (lines : list str) :
  forall s r s' t,
    for_each lines (process_line host args) s = (r, s', t) ->
    forallb (level_respected args) t = true
    /\ error_logged t = any_build_failed t.
Proof.
  induction lines as [|line lines IH]; intros s r s' t Hrun.
  - cbn in Hrun. now injection Hrun as <- <- <-.
  - cbn [for_each] in Hrun. unfold bind in Hrun.
    destruct (well_formed_dec line) as [Hwf|Hwf].
    + destruct (well_formed_parsed line Hwf) as (name & version & path & Hp).
      rewrite (process_line_parsed host args _ _ _ _ s Hp) in Hrun.
      destruct (process_record_logs host args name version path s)
        as [Hlevel Herror].
      destruct (process_record host args name version path s)
        as [[r1 s1] t1].
      cbn [snd] in Hlevel, Herror.
      destruct r1 as [[]|e].
      * destruct (for_each lines (process_line host args) s1)
          as [[r2 s2] t2] eqn:Hrest.
        injection Hrun as <- <- <-.
        destruct (IH _ _ _ _ Hrest) as [Hlevel2 Herror2].
        rewrite forallb_app, error_logged_app, any_build_failed_app.
        now rewrite Hlevel, Hlevel2, Herror, Herror2.
      * now injection Hrun as <- <- <-.
    + rewrite (process_line_malformed host args line s Hwf) in Hrun.
      now injection Hrun as <- <- <-.
Qed.

(** A pull that fails in the loop ends the loop, and is the last thing
    the loop does. *)
Lemma loop_pull_failed (lines : list str) :
  forall s r s' t,
    for_each lines (process_line host args) s = (r, s', t) ->
    existsb pull_failed t = true ->
    r <> Ok tt
    /\ exists t0 e, t = t0 ++ [e] /\ pull_failed e = true.
Proof.
  induction lines as [|line lines IH]; intros s r s' t Hrun Hpull.
  - cbn in Hrun. injection Hrun as <- <- <-. discriminate Hpull.
  - cbn [for_each] in Hrun. unfold bind in Hrun.
    destruct (well_formed_dec line) as [Hwf|Hwf].
    + destruct (well_formed_parsed line Hwf) as (name & version & path & Hp).
      rewrite (process_line_parsed host args _ _ _ _ s Hp) in Hrun.
      pose proof (process_record_pull_failed host args name version path s)
        as Hlast.
      pose proof (process_record_spec host args name version path s) as Hstep.
      unfold step_spec in Hstep.
      destruct (process_record host args name version path s)
        as [[r1 s1] t1].
      cbn [snd] in Hlast. destruct Hstep as (_ & Hfatal & _).
      destruct r1 as [[]|e].
      * destruct (for_each lines (process_line host args) s1)
          as [[r2 s2] t2] eqn:Hrest.
        injection Hrun as <- <- <-.
        rewrite existsb_app in Hpull.
        assert (H1 : existsb pull_failed t1 = false).
        { destruct (existsb pull_failed t1) eqn:E; [|reflexivity].
          apply pull_failed_fatal in E.
          rewrite (proj1 Hfatal eq_refl) in E. discriminate E. }
        rewrite H1 in Hpull. cbn [orb] in Hpull.
        destruct (IH _ _ _ _ Hrest Hpull) as (Hr & t0 & e & Ht & He).
        split; [exact Hr|]. exists (t1 ++ t0), e.
        split; [|exact He]. now rewrite Ht, app_assoc.
      * injection Hrun as <- <- <-. split; [discriminate|].
        exact (Hlast Hpull).
    + rewrite (process_line_malformed host args line s Hwf) in Hrun.
      injection Hrun as <- <- <-. discriminate Hpull.
Qed.


(** A loop pulls the irods image only, at most once for each record for
    which that image is chosen. *)
Lemma loop_pulls_any (lines : list str) :
  forall s r s' t,
    for_each lines (process_line host args) s = (r, s', t) ->
    exists k,
      (k <= length (filter needs_irods_image lines))%nat
      /\ pulls t = repeat (irods_build_image args) k.
Proof.
  induction lines as [|line lines IH]; intros s r s' t Hrun.
  - cbn in Hrun. injection Hrun as <- <- <-. now exists 0%nat.
  - cbn [for_each] in Hrun. unfold bind in Hrun.
    destruct (well_formed_dec line) as [Hwf|Hwf].
    + destruct (well_formed_parsed line Hwf) as (name & version & path & Hp).
      rewrite (process_line_parsed host args _ _ _ _ s Hp) in Hrun.
      pose proof (process_record_pulls host args name version path s)
        as Hpulls.
      destruct (process_record host args name version path s)
        as [[r1 s1] t1].
      cbn [snd] in Hpulls.
      assert (Hneeds : needs_irods_image line = is_irods_4_1 name version)
        by (unfold needs_irods_image; now rewrite Hp).
      cbn [filter]. rewrite Hneeds.
      destruct r1 as [[]|e].
      * destruct (for_each lines (process_line host args) s1)
          as [[r2 s2] t2] eqn:Hrest.
        injection Hrun as <- <- <-.
        destruct (IH _ _ _ _ Hrest) as (k & Hk & Hp2).
        rewrite pulls_app, Hpulls, Hp2.
        destruct (is_irods_4_1 name version).
        -- exists (S k). split; [cbn; lia | reflexivity].
        -- now exists k.
      * injection Hrun as <- <- <-. rewrite Hpulls.
        destruct (is_irods_4_1 name version).
        -- exists 1%nat. split; [cbn; lia | reflexivity].
        -- exists 0%nat. split; [lia | reflexivity].
    + rewrite (process_line_malformed host args line s Hwf) in Hrun.
      injection Hrun as <- <- <-. exists 0%nat. split; [lia | reflexivity].
Qed.

End Loops.

(** ** More on runs *)

(** X11. The exit status of a run is 0 or 1, whatever the input and the
    host: the return code of a build or of a pull is never passed on. *)
Theorem exit_status_zero_or_one
    (host : Host) (args : Args) (lines : list str) :
  fst (main host args lines) = 0%Z \/ fst (main host args lines) = 1%Z.
Proof.
  rewrite main_run. cbv zeta.
  destruct (spawn host 0 (pull_argv (conda_build_image args)))
    as [rc out|]; [|now right].
  destruct (rc =? 0)%Z; [|now right].
  destruct (for_each lines (process_line host args) loop_start)
    as [[r s'] t] eqn:Hloop.
  destruct (loop_any host args lines _ _ _ _ Hloop) as (Hexit & _).
  cbn [fst]. destruct r as [[]|e].
  - destruct (fail s'); auto.
  - right. destruct e; try reflexivity. now contradiction (Hexit code).
Qed.

(** X12. Whenever a build that was launched exited with a non-zero
    status, the exit status of the run is 1, however the run goes on and
    ends. *)
Theorem build_failure_gives_status_one
    (host : Host) (args : Args) (lines : list str) :
  any_build_failed (snd (main host args lines)) = true ->
  fst (main host args lines) = 1%Z.
Proof.
  rewrite main_run. cbv zeta.
  destruct (spawn host 0 (pull_argv (conda_build_image args)))
    as [rc out|]; [|reflexivity].
  destruct (rc =? 0)%Z; [|reflexivity].
  destruct (for_each lines (process_line host args) loop_start)
    as [[r s'] t] eqn:Hloop.
  destruct (loop_any host args lines _ _ _ _ Hloop)
    as (Hexit & _ & _ & Hfail).
  cbn [fst snd]. change (EvSpawn ?a ?b :: t) with ([EvSpawn a b] ++ t).
  rewrite any_build_failed_app, any_build_failed_pull. cbn [orb].
  intro Hfailed. rewrite Hfailed in Hfail. cbn [fail loop_start orb] in Hfail.
  destruct r as [[]|e].
  - now rewrite Hfail.
  - destruct e; try reflexivity. now contradiction (Hexit code).
Qed.

Lemma build_failure_gives_status_one_witness :
  fst (main (nth_fails_garbled 1) defaults [zlib_line; samtools_line]) = 1%Z.
Proof.
  apply (build_failure_gives_status_one (nth_fails_garbled 1) defaults
           [zlib_line; samtools_line]).
  vm_compute. reflexivity.
Defined.

(** X13. A run that exits with status 0 has done everything: every line
    was well formed, no pull failed, every process started, every output
    was decoded, no build exited with a non-zero status, and the plans of
    all the lines were launched, or under dry-run described, in the order
    of the lines. *)
Theorem status_zero_means_all_done
    (host : Host) (args : Args) (lines : list str) :
  fst (main host args lines) = 0%Z ->
  Forall well_formed lines
  /\ existsb (fatal host) (snd (main host args lines)) = false
  /\ any_build_failed (snd (main host args lines)) = false
  /\ attempts (snd (main host args lines))
     = (if dry_run args then [] else plans args lines)
  /\ descriptions (snd (main host args lines))
     = (if dry_run args
        then map (description host) (plans args lines) else []).
Proof.
  rewrite main_run. cbv zeta.
  destruct (spawn host 0 (pull_argv (conda_build_image args)))
    as [rc out|]; [|discriminate].
  destruct (rc =? 0)%Z eqn:Hrc; [|discriminate].
  destruct (for_each lines (process_line host args) loop_start)
    as [[r s'] t] eqn:Hloop.
  destruct (loop_any host args lines _ _ _ _ Hloop)
    as (Hexit & _ & _ & Hfail).
  cbn [fst snd]. intro Hstatus.
  destruct r as [[]|e].
  - assert (Hwf : Forall well_formed lines)
      by exact (loop_ok_well_formed host args lines _ _ _ Hloop).
    destruct (loop_well_formed host args lines Hwf _ _ _ _ Hloop)
      as [Hfatal Hall].
    destruct (Hall eq_refl) as [Hatt Hdesc].
    change (EvSpawn ?a ?b :: t) with ([EvSpawn a b] ++ t).
    rewrite existsb_app, any_build_failed_app, attempts_app,
      descriptions_app, fatal_pull, any_build_failed_pull, attempts_pull,
      descriptions_spawn, Hrc.
    cbn [negb orb app].
    destruct (fail s') eqn:Hf; [discriminate Hstatus|].
    cbn [fail loop_start orb] in Hfail.
    repeat split; auto. now apply Hfatal.
  - destruct e; try discriminate Hstatus.
    now contradiction (Hexit code).
Qed.

Lemma status_zero_means_all_done_witness :
  attempts (snd (main all_succeed defaults
                   [zlib_line; irods_line; samtools_line]))
  = plans defaults [zlib_line; irods_line; samtools_line].
Proof.
  apply (status_zero_means_all_done all_succeed defaults
           [zlib_line; irods_line; samtools_line]).
  vm_compute. reflexivity.
Defined.


(** X15. A run pulls the two configured images and no other: first the
    default build image, once, then only the irods build image, at most
    once for each line for which that image is chosen. *)
Theorem pulls_only_configured_images
    (host : Host) (args : Args) (lines : list str) :
  exists k,
    (k <= length (filter needs_irods_image lines))%nat
    /\ pulls (snd (main host args lines))
       = conda_build_image args :: repeat (irods_build_image args) k.
Proof.
  rewrite main_run. cbv zeta.
  destruct (spawn host 0 (pull_argv (conda_build_image args)))
    as [rc out|]; [|exists 0%nat; split; [lia | reflexivity]].
  destruct (rc =? 0)%Z; [|exists 0%nat; split; [lia | reflexivity]].
  destruct (for_each lines (process_line host args) loop_start)
    as [[r s'] t] eqn:Hloop.
  destruct (loop_pulls_any host args lines _ _ _ _ Hloop) as (k & Hk & Hp).
  exists k. split; [exact Hk|]. cbn [snd].
  change (EvSpawn ?a ?b :: t) with ([EvSpawn a b] ++ t).
  now rewrite pulls_app, pulls_pull, Hp.
Qed.

(** X16. A pull that fails, of the default image or of the irods image,
    ends the run: it is the last event of the run, nothing is logged or
    launched after it, and the exit status is 1. *)
Theorem failed_pull_ends_run
    (host : Host) (args : Args) (lines : list str) :
  existsb pull_failed (snd (main host args lines)) = true ->
  fst (main host args lines) = 1%Z
  /\ exists t0 e,
       snd (main host args lines) = t0 ++ [e] /\ pull_failed e = true.
Proof.
  rewrite main_run. cbv zeta.
  destruct (spawn host 0 (pull_argv (conda_build_image args)))
    as [rc out|] eqn:Hpull.
  - destruct (rc =? 0)%Z eqn:Hrc.
    + destruct (for_each lines (process_line host args) loop_start)
        as [[r s'] t] eqn:Hloop.
      cbn [fst snd]. change (EvSpawn ?a ?b :: t) with ([EvSpawn a b] ++ t).
      rewrite existsb_app, pull_failed_pull, Hrc. cbn [negb orb].
      intro Hfailed.
      destruct (loop_pull_failed host args lines _ _ _ _ Hloop Hfailed)
        as (Hr & t0 & e & Ht & He).
      destruct (loop_any host args lines _ _ _ _ Hloop) as (Hexit & _).
      split.
      * destruct r as [[]|e']; [now contradiction Hr|].
        destruct e'; try reflexivity. now contradiction (Hexit code).
      * exists (EvSpawn (pull_argv (conda_build_image args)) (Exited rc out)
                  :: t0), e.
        split; [|exact He]. now rewrite Ht.
    + intros _. split; [reflexivity|].
      exists [], (EvSpawn (pull_argv (conda_build_image args)) (Exited rc out)).
      split; [reflexivity|]. unfold pull_failed.
      change (is_build (pull_argv (conda_build_image args))) with false.
      now rewrite Hrc.
  - intros _. split; [reflexivity|].
    now exists [], (EvSpawn (pull_argv (conda_build_image args)) NotStarted).
Qed.

Lemma failed_pull_ends_run_witness :
  fst (main (nth_fails 2) defaults [zlib_line; irods_line; samtools_line])
  = 1%Z
  /\ exists t0 e,
       snd (main (nth_fails 2) defaults [zlib_line; irods_line; samtools_line])
       = t0 ++ [e]
       /\ pull_failed e = true.
Proof.
  apply (failed_pull_ends_run (nth_fails 2) defaults
           [zlib_line; irods_line; samtools_line]).
  vm_compute. reflexivity.
Defined.

(** The records of a run are at the configured level or above, and one
    of them is at ERROR level exactly when a build exited with a non-zero
    status. *)
Lemma main_logs (host : Host) (args : Args) (lines : list str) :
  forallb (level_respected args) (snd (main host args lines)) = true
  /\ error_logged (snd (main host args lines))
     = any_build_failed (snd (main host args lines)).
Proof.
  rewrite main_run. cbv zeta.
  destruct (spawn host 0 (pull_argv (conda_build_image args)))
    as [rc out|]; [|now split].
  destruct (rc =? 0)%Z; [|now split].
  destruct (for_each lines (process_line host args) loop_start)
    as [[r s'] t] eqn:Hloop.
  cbn [snd]. change (EvSpawn ?a ?b :: t) with ([EvSpawn a b] ++ t).
  rewrite forallb_app, error_logged_app, any_build_failed_app,
    any_build_failed_pull.
  cbn [error_logged existsb forallb level_respected orb andb].
  exact (loop_logs host args lines _ _ _ _ Hloop).
Qed.

Lemma level_at_least (args : Args) (lvl : Level) :
  (level_no (level args) <= level_no lvl)%Z ->
  (debug args = false -> lvl <> DEBUG)
  /\ (debug args = false -> verbose args = false -> dry_run args = false ->
      lvl = ERROR).
Proof.
  unfold level. intro Hlevel. split.
  - intros Hd ->. rewrite Hd in Hlevel.
    destruct (verbose args || dry_run args); cbn in Hlevel; lia.
  - intros Hd Hv Hdry. rewrite Hd, Hv, Hdry in Hlevel.
    destruct lvl; cbn in Hlevel; try lia. reflexivity.
Qed.

(** X17. No record below the configured level reaches the handler, in
    any run: with [--debug] everything passes, with [--verbose] or
    [--dry-run] (and no [--debug]) records at INFO and ERROR, and with none
    of the three records at ERROR only. *)
Theorem log_records_respect_level
    (host : Host) (args : Args) (lines : list str) (lvl : Level) (m : str) :
  In (EvLog lvl m) (snd (main host args lines)) ->
  (level_no (level args) <= level_no lvl)%Z
  /\ (debug args = false -> lvl <> DEBUG)
  /\ (debug args = false -> verbose args = false -> dry_run args = false ->
      lvl = ERROR).
Proof.
  intro Hin.
  pose proof (proj1 (main_logs host args lines)) as Hlevel.
  rewrite forallb_forall in Hlevel. specialize (Hlevel _ Hin).
  cbn in Hlevel. apply Z.leb_le in Hlevel.
  split; [exact Hlevel|]. now apply level_at_least.
Qed.

Lemma log_records_respect_level_witness :
  (level_no (level defaults) <= level_no ERROR)%Z
  /\ (debug defaults = false -> ERROR <> DEBUG)
  /\ (debug defaults = false -> verbose defaults = false ->
      dry_run defaults = false -> ERROR = ERROR).
Proof.
  apply (log_records_respect_level (nth_fails 1) defaults
           [zlib_line; samtools_line] ERROR begin_marker).
  vm_compute. right. right. left. reflexivity.
Defined.

(** X18. In any run, a record at ERROR level reaches the handler exactly
    when a build that was launched exited with a non-zero status: nothing
    else is reported as an error, and no failed build goes unreported. *)
Theorem error_record_iff_build_failed
    (host : Host) (args : Args) (lines : list str) :
  error_logged (snd (main host args lines))
  = any_build_failed (snd (main host args lines)).
Proof.
  rewrite main_run. cbv zeta.
  destruct (spawn host 0 (pull_argv (conda_build_image args)))
    as [rc out|]; [|reflexivity].
  destruct (rc =? 0)%Z; [|reflexivity].
  destruct (for_each lines (process_line host args) loop_start)
    as [[r s'] t] eqn:Hloop.
  cbn [snd]. change (EvSpawn ?a ?b :: t) with ([EvSpawn a b] ++ t).
  rewrite error_logged_app, any_build_failed_app, any_build_failed_pull.
  cbn [error_logged existsb orb].
  exact (proj2 (loop_logs host args lines _ _ _ _ Hloop)).
Qed.

(** X19. With none of [--debug], [--verbose] and [--dry-run], a run in
    which no build exits with a non-zero status logs nothing at all: all
    it does is to spawn processes. *)
Theorem silent_without_failure
    (host : Host) (args : Args) (lines : list str) :
  debug args = false -> verbose args = false -> dry_run args = false ->
  any_build_failed (snd (main host args lines)) = false ->
  existsb is_log (snd (main host args lines)) = false.
Proof.
  intros Hd Hv Hdry Hnone.
  destruct (existsb is_log (snd (main host args lines))) eqn:E;
    [|reflexivity].
  apply existsb_exists in E as [e [Hin He]].
  destruct e as [argv r|lvl m]; [discriminate He|].
  destruct (main_logs host args lines) as [Hlevel Herror].
  rewrite forallb_forall in Hlevel. pose proof (Hlevel _ Hin) as Hl.
  cbn in Hl. apply Z.leb_le in Hl.
  pose proof (proj2 (level_at_least args lvl Hl) Hd Hv Hdry) as ->.
  assert (Herr : error_logged (snd (main host args lines)) = true).
  { unfold error_logged. apply existsb_exists.
    now exists (EvLog ERROR m). }
  congruence.
Qed.

Lemma silent_without_failure_witness :
  existsb is_log (snd (main all_succeed defaults
                         [zlib_line; irods_line; samtools_line])) = false.
Proof.
  apply (silent_without_failure all_succeed defaults
           [zlib_line; irods_line; samtools_line]);
    try reflexivity.
Defined.

(** X20. On empty input a run pulls the default build image and does
    nothing else; its exit status is 0 if that pull exits with status 0
    and 1 otherwise. *)
Theorem empty_input_only_pulls (host : Host) (args : Args) :
  main host args []
  = (match spawn host 0 (pull_argv (conda_build_image args)) with
     | Exited rc _ => if (rc =? 0)%Z then 0%Z else 1%Z
     | NotStarted => 1%Z
     end,
     [EvSpawn (pull_argv (conda_build_image args))
        (spawn host 0 (pull_argv (conda_build_image args)))]).
Proof.
  rewrite main_run. cbv zeta.
  destruct (spawn host 0 (pull_argv (conda_build_image args)))
    as [rc out|]; [|reflexivity].
  now destruct (rc =? 0)%Z.
Qed.
